(** * Transcript streamliner (scripts/streamline.py): a shallow embedding

    The script reads a transcript, one JSON record per line, and writes a
    reduced transcript.  Every value it handles comes out of [json.loads], so
    the embedding works on a type of JSON values and spells out what Python
    does on each shape of value, including the exceptions it raises on shapes
    the script did not expect.

    Conventions.
    - A Python [str] is a [string], one [ascii] per character.
    - A Python [dict] is an association list in insertion order.
    - Code that can raise returns an [outcome]; only [json.JSONDecodeError] is
      ever caught by the script, so any other exception ends the pass.
    - [str(v)], [json.loads] and [json.dumps] are library functions; the
      definitions that call them take them as section variables. *)

From Stdlib Require Import List String Ascii Bool Arith ZArith Lia QArith.
From Stdlib Require Import Floats.SpecFloat DecimalString.
Import ListNotations.

Local Set Warnings "-register-all".
Local Open Scope string_scope.
Local Open Scope list_scope.
Local Open Scope nat_scope.

(* ================================================================== *)
(** ** Values and exceptions *)

(** What [json.loads] can return. *)
Inductive json : Type :=
| JNull
| JBool (b : bool)
| JInt (n : Z)
| JFloat (f : spec_float)
| JStr (s : string)
| JArr (items : list json)
| JObj (fields : list (string * json)).

(** A [dict] with string keys, in insertion order. *)
Definition dict : Type := list (string * json).

Inductive exn : Type :=
| AttributeError
| TypeError
| KeyError
| ZeroDivisionError.

Inductive outcome (A : Type) : Type :=
| Ok (a : A)
| Raise (e : exn).

Arguments Ok {A} a.
Arguments Raise {A} e.

Definition bind {A B : Type} (m : outcome A) (k : A -> outcome B) : outcome B :=
  match m with
  | Ok a => k a
  | Raise e => Raise e
  end.

Declare Scope py_scope.
Delimit Scope py_scope with py.
Notation "x <- m ;; k" := (bind m (fun x => k))
  (at level 61, m at next level, right associativity) : py_scope.
Notation "' p <- m ;; k" := (bind m (fun x => let p := x in k))
  (at level 61, p pattern, m at next level, right associativity) : py_scope.
Local Open Scope py_scope.

Fixpoint mapM {A B : Type} (f : A -> outcome B) (l : list A) : outcome (list B) :=
  match l with
  | [] => Ok []
  | a :: rest =>
      b <- f a ;;
      bs <- mapM f rest ;;
      Ok (b :: bs)
  end.

(* ================================================================== *)
(** ** Strings *)

(** [s[:n]] on a [str]. *)
Fixpoint str_take (n : nat) (s : string) : string :=
  match n, s with
  | S n', String c s' => String c (str_take n' s')
  | _, _ => EmptyString
  end.

(** [str.isspace] on one character (code points below 256). *)
Definition is_space (c : ascii) : bool :=
  let n := nat_of_ascii c in
  ((9 <=? n) && (n <=? 13)) || ((28 <=? n) && (n <=? 32))
  || (n =? 133) || (n =? 160).

Fixpoint lstrip (s : string) : string :=
  match s with
  | String c s' => if is_space c then lstrip s' else s
  | EmptyString => EmptyString
  end.

(** Drops trailing whitespace: a character survives when it is not a space
    or something after it survives. *)
Fixpoint rstrip (s : string) : string :=
  match s with
  | EmptyString => EmptyString
  | String c s' =>
      match rstrip s' with
      | EmptyString => if is_space c then EmptyString else String c EmptyString
      | r => String c r
      end
  end.

(** [s.strip()] *)
Definition str_strip (s : string) : string := rstrip (lstrip s).

(** Truth value of a [str]: non-empty. *)
Definition str_nonempty (s : string) : bool :=
  match s with
  | EmptyString => false
  | String _ _ => true
  end.

(** [key in s] for two strings: substring test. *)
Definition str_contains (key s : string) : bool :=
  match index 0 key s with
  | Some _ => true
  | None => false
  end.

(** The characters of a string, each as a one-character [str]. *)
Fixpoint str_chars (s : string) : list json :=
  match s with
  | EmptyString => []
  | String c s' => JStr (String c EmptyString) :: str_chars s'
  end.

(* ================================================================== *)
(** ** Dictionaries *)

Fixpoint dict_lookup (d : dict) (k : string) : option json :=
  match d with
  | [] => None
  | (k', v) :: rest => if (k' =? k)%string then Some v else dict_lookup rest k
  end.

(** [d.get(k, default)] *)
Definition dict_get (d : dict) (k : string) (default : json) : json :=
  match dict_lookup d k with
  | Some v => v
  | None => default
  end.

(** [d[k] = v]: an existing key keeps its place, a new one goes last. *)
Fixpoint dict_set (d : dict) (k : string) (v : json) : dict :=
  match d with
  | [] => [(k, v)]
  | (k', v') :: rest =>
      if (k' =? k)%string then (k', v) :: rest
      else (k', v') :: dict_set rest k v
  end.

(** [{**d, **extra}] *)
Definition dict_update (d extra : dict) : dict :=
  fold_left (fun acc kv => dict_set acc (fst kv) (snd kv)) extra d.

(* ================================================================== *)
(** ** Python operations on JSON values *)

(** [bool(v)] *)
Definition py_truthy (v : json) : bool :=
  match v with
  | JNull => false
  | JBool b => b
  | JInt n => negb (n =? 0)%Z
  | JFloat (S754_zero _) => false
  | JFloat _ => true
  | JStr s => str_nonempty s
  | JArr [] => false
  | JArr _ => true
  | JObj [] => false
  | JObj _ => true
  end.

(** [v == "lit"] *)
Definition py_eq_str (v : json) (lit : string) : bool :=
  match v with
  | JStr s => (s =? lit)%string
  | _ => false
  end.

(** [v.get(k, default)]: only a [dict] has [get]. *)
Definition py_get (v : json) (k : string) (default : json) : outcome json :=
  match v with
  | JObj d => Ok (dict_get d k default)
  | _ => Raise AttributeError
  end.

(** [v.items()] *)
Definition py_items (v : json) : outcome (list (string * json)) :=
  match v with
  | JObj d => Ok d
  | _ => Raise AttributeError
  end.

(** [for item in v]: a list yields its elements, a [str] its characters, a
    [dict] its keys; nothing else is iterable. *)
Definition py_iter (v : json) : outcome (list json) :=
  match v with
  | JArr l => Ok l
  | JStr s => Ok (str_chars s)
  | JObj d => Ok (map (fun kv => JStr (fst kv)) d)
  | _ => Raise TypeError
  end.

(** [len(v)] *)
Definition py_len (v : json) : outcome nat :=
  match v with
  | JStr s => Ok (String.length s)
  | JArr l => Ok (List.length l)
  | JObj d => Ok (List.length d)
  | _ => Raise TypeError
  end.

(** [v[:n]]: defined on [str] and [list].  A [dict] rejects the slice as a
    key ([TypeError]; [KeyError] from Python 3.12 on), and the other values
    are not subscriptable. *)
Definition py_slice (n : nat) (v : json) : outcome json :=
  match v with
  | JStr s => Ok (JStr (str_take n s))
  | JArr l => Ok (JArr (firstn n l))
  | _ => Raise TypeError
  end.

(** [v + "lit"] *)
Definition py_add_str (v : json) (lit : string) : outcome json :=
  match v with
  | JStr s => Ok (JStr (s ++ lit)%string)
  | _ => Raise TypeError
  end.

(** [v.strip()] *)
Definition py_strip (v : json) : outcome string :=
  match v with
  | JStr s => Ok (str_strip s)
  | _ => Raise AttributeError
  end.

(** [v.startswith("lit")] *)
Definition py_startswith (v : json) (lit : string) : outcome bool :=
  match v with
  | JStr s => Ok (prefix lit s)
  | _ => Raise AttributeError
  end.

(** [key in v] for a [str] key. *)
Definition py_contains (key : string) (v : json) : outcome bool :=
  match v with
  | JObj d => Ok (match dict_lookup d key with Some _ => true | None => false end)
  | JArr l => Ok (existsb (fun x => py_eq_str x key) l)
  | JStr s => Ok (str_contains key s)
  | _ => Raise TypeError
  end.

(** [v[key]] for a [str] key. *)
Definition py_getitem (v : json) (key : string) : outcome json :=
  match v with
  | JObj d =>
      match dict_lookup d key with
      | Some x => Ok x
      | None => Raise KeyError
      end
  | _ => Raise TypeError
  end.

(** ["".join(parts)]: every part must be a [str]. *)
Fixpoint py_join (parts : list json) : outcome string :=
  match parts with
  | [] => Ok EmptyString
  | JStr s :: rest =>
      r <- py_join rest ;;
      Ok (s ++ r)%string
  | _ :: _ => Raise TypeError
  end.

(** Whether a value can be a dictionary key. *)
Definition py_hashable (v : json) : bool :=
  match v with
  | JArr _ | JObj _ => false
  | _ => true
  end.

(* ================================================================== *)
(** ** The tool-use simplifier and the tool-result reducer *)

(** What a hashable JSON value is as a [dict] key.  Keys match by identity
    or by [==], so numbers match by value across [bool], [int] and [float]
    ([True], [1] and [1.0] are one key), and the one NaN object that
    [json.loads] hands out matches itself. *)
Inductive dict_key : Type :=
| KNone
| KStr (s : string)
| KNum (q : Q)
| KInf (negative : bool)
| KNan.

(** The key of a value; [None] for a list or a dict, which cannot be keys. *)
Definition py_key (v : json) : option dict_key :=
  match v with
  | JNull => Some KNone
  | JStr s => Some (KStr s)
  | JBool b => Some (KNum (if b then 1 else 0)%Q)
  | JInt n => Some (KNum (inject_Z n))
  | JFloat (S754_zero _) => Some (KNum 0%Q)
  | JFloat (S754_infinity negative) => Some (KInf negative)
  | JFloat S754_nan => Some KNan
  | JFloat (S754_finite negative m e) =>
      Some (KNum (inject_Z (if negative then Zneg m else Zpos m)
                  * Qpower (2 # 1) e)%Q)
  | JArr _ | JObj _ => None
  end.

Definition dict_key_eqb (a b : dict_key) : bool :=
  match a, b with
  | KNone, KNone => true
  | KStr s, KStr t => (s =? t)%string
  | KNum p, KNum q => Qeq_bool p q
  | KInf x, KInf y => Bool.eqb x y
  | KNan, KNan => true
  | _, _ => false
  end.

(** Whether two values are the same key of a [dict]. *)
Definition py_key_eq (k1 k2 : json) : bool :=
  match py_key k1, py_key k2 with
  | Some a, Some b => dict_key_eqb a b
  | _, _ => false
  end.

(** The registry [tool_uses]: a [dict] from invocation id to simplified
    record, in insertion order. *)
Definition registry : Type := list (json * dict).

(** A binding written into the registry: the value of a key already there is
    replaced where it stands, a new key goes last. *)
Fixpoint registry_insert (tool_uses : registry) (key : json) (value : dict)
  : registry :=
  match tool_uses with
  | [] => [(key, value)]
  | (k, v) :: rest =>
      if py_key_eq k key then (k, value) :: rest
      else (k, v) :: registry_insert rest key value
  end.

(** [tool_uses[key] = value]: the key must be hashable. *)
Definition registry_set (tool_uses : registry) (key : json) (value : dict)
  : outcome registry :=
  if py_hashable key then Ok (registry_insert tool_uses key value)
  else Raise TypeError.

Definition probe_keys : list string :=
  ["file_path"; "path"; "query"; "url"; "id"].

Section Streamline.

(** [str(v)] *)
Variable py_str : json -> string.

(** The generic fallback of [simplify_tool_use]: the first probe key found
    in the payload gives one field and ends the loop. *)
Fixpoint fallback_probe (keys : list string) (inp : json) (result : dict)
  : outcome dict :=
  match keys with
  | [] => Ok result
  | key :: rest =>
      found <- py_contains key inp ;;
      if found : bool then
        v <- py_getitem inp key ;;
        Ok (dict_set result key (JStr (str_take 200 (py_str v))))
      else fallback_probe rest inp result
  end.

(** [{k: str(v)[:100] for k, v in items}] *)
Definition mcp_params (items : list (string * json)) : dict :=
  fold_left
    (fun acc kv => dict_set acc (fst kv) (JStr (str_take 100 (py_str (snd kv)))))
    items [].

Definition simplify_tool_use (tool_use : dict) : outcome dict :=
  let name := dict_get tool_use "name" (JStr "unknown") in
  let inp := dict_get tool_use "input" (JObj []) in
  let tool_id := dict_get tool_use "id" (JStr "") in
  let result := [("tool", name); ("id", tool_id)] in
  if py_eq_str name "Read" then
    v <- py_get inp "file_path" (JStr "") ;;
    Ok (dict_set result "target" v)
  else if py_eq_str name "Edit" then
    v <- py_get inp "file_path" (JStr "") ;;
    Ok (dict_set result "target" v)
  else if py_eq_str name "Write" then
    v <- py_get inp "file_path" (JStr "") ;;
    Ok (dict_set result "target" v)
  else if py_eq_str name "Bash" then
    cmd <- py_get inp "command" (JStr "") ;;
    n <- py_len cmd ;;
    c <- (if 200 <? n
          then (head <- py_slice 200 cmd ;; py_add_str head "...")
          else Ok cmd) ;;
    Ok (dict_set result "cmd" c)
  else if py_eq_str name "Grep" then
    p <- py_get inp "pattern" (JStr "") ;;
    p' <- py_slice 100 p ;;
    let result := dict_set result "pattern" p' in
    path <- py_get inp "path" JNull ;;
    if py_truthy path then
      path' <- py_get inp "path" JNull ;;
      Ok (dict_set result "path" path')
    else Ok result
  else if py_eq_str name "Glob" then
    p <- py_get inp "pattern" (JStr "") ;;
    Ok (dict_set result "pattern" p)
  else if py_eq_str name "Task" then
    d <- py_get inp "description" (JStr "") ;;
    let result := dict_set result "desc" d in
    a <- py_get inp "subagent_type" (JStr "") ;;
    Ok (dict_set result "agent" a)
  else if py_eq_str name "TodoWrite" then
    todos <- py_get inp "todos" (JArr []) ;;
    first5 <- py_slice 5 todos ;;
    ts <- py_iter first5 ;;
    texts <- mapM (fun t => c <- py_get t "content" (JStr "") ;; py_slice 50 c) ts ;;
    Ok (dict_set result "todos" (JArr texts))
  else
    is_mcp <- py_startswith name "mcp__" ;;
    if is_mcp : bool then
      items <- py_items inp ;;
      Ok (dict_set result "params" (JObj (mcp_params (firstn 3 items))))
    else fallback_probe probe_keys inp result.

Definition process_tool_result (tool_result : dict) (tool_uses : registry)
  : outcome dict :=
  let tool_id := dict_get tool_result "tool_use_id" (JStr "") in
  let is_error := dict_get tool_result "is_error" (JBool false) in
  let result := [("id", tool_id); ("ok", JBool (negb (py_truthy is_error)))] in
  if py_truthy is_error then
    let content := dict_get tool_result "content" (JStr "") in
    match content with
    | JStr s => Ok (dict_set result "error" (JStr (str_take 200 s)))
    | JArr (first :: _) =>
        match first with
        | JObj d =>
            e <- py_slice 200 (dict_get d "text" (JStr "")) ;;
            Ok (dict_set result "error" e)
        | JStr s => Ok (dict_set result "error" (JStr (str_take 200 s)))
        | _ => Ok result
        end
    | _ => Ok result
    end
  else Ok result.

(* ================================================================== *)
(** ** The content processors *)

(** The loop of [extract_user_text]: what each block adds to [text_parts]. *)
Fixpoint text_parts (content : list json) : list json :=
  match content with
  | [] => []
  | JStr s :: rest => JStr s :: text_parts rest
  | JObj d :: rest =>
      if py_eq_str (dict_get d "type" JNull) "text"
      then dict_get d "text" (JStr "") :: text_parts rest
      else text_parts rest
  | _ :: rest => text_parts rest
  end.

(** [None] when the collapsed text is empty. *)
Definition extract_user_text (content : json) : outcome (option string) :=
  items <- py_iter content ;;
  joined <- py_join (text_parts items) ;;
  let text := str_strip joined in
  Ok (if str_nonempty text then Some text else None).

Fixpoint assistant_loop (items : list json) (outputs : list dict)
  (tool_uses : registry) : outcome (list dict * registry) :=
  match items with
  | [] => Ok (outputs, tool_uses)
  | JObj item :: rest =>
      let item_type := dict_get item "type" JNull in
      if py_eq_str item_type "text" then
        text <- py_strip (dict_get item "text" (JStr "")) ;;
        if str_nonempty text then
          assistant_loop rest
            (outputs ++ [[("type", JStr "assistant"); ("text", JStr text)]])
            tool_uses
        else assistant_loop rest outputs tool_uses
      else if py_eq_str item_type "tool_use" then
        simplified <- simplify_tool_use item ;;
        let outputs :=
          outputs ++ [dict_update [("type", JStr "tool_use")] simplified] in
        tool_uses <- registry_set tool_uses (dict_get item "id" (JStr "")) simplified ;;
        assistant_loop rest outputs tool_uses
      else assistant_loop rest outputs tool_uses
  | _ :: rest => assistant_loop rest outputs tool_uses
  end.

Definition process_assistant_message (content : json) (tool_uses : registry)
  : outcome (list dict * registry) :=
  items <- py_iter content ;;
  assistant_loop items [] tool_uses.

Fixpoint user_results_loop (items : list json) (outputs : list dict)
  (tool_uses : registry) : outcome (list dict) :=
  match items with
  | [] => Ok outputs
  | JObj item :: rest =>
      if py_eq_str (dict_get item "type" JNull) "tool_result" then
        r <- process_tool_result item tool_uses ;;
        user_results_loop rest
          (outputs ++ [dict_update [("type", JStr "result")] r]) tool_uses
      else user_results_loop rest outputs tool_uses
  | _ :: rest => user_results_loop rest outputs tool_uses
  end.

Definition process_user_message (content : json) (tool_uses : registry)
  : outcome (list dict) :=
  user_text <- extract_user_text content ;;
  let outputs :=
    match user_text with
    | Some text => [[("type", JStr "user"); ("text", JStr text)]]
    | None => []
    end in
  items <- py_iter content ;;
  user_results_loop items outputs tool_uses.

(* ================================================================== *)
(** ** The pass over the input *)

Record stats : Type := mkStats {
  input_lines : nat;
  input_bytes : nat;
  output_lines : nat;
  output_bytes : nat;
  dropped_records : nat
}.

(** What the loop of [streamline] carries from line to line: the counters,
    the registry and the lines written to [output_file] so far. *)
Record state : Type := mkState {
  st_stats : stats;
  st_tool_uses : registry;
  st_output_file : list string
}.

(** [json.loads]: [None] stands for [json.JSONDecodeError]. *)
Variable json_loads : string -> option json.

(** [json.dumps(output, separators=(",", ":"))] *)
Variable json_dumps : dict -> string.

Definition count_line (st : stats) (line : string) : stats :=
  mkStats (input_lines st + 1) (input_bytes st + String.length line)
    (output_lines st) (output_bytes st) (dropped_records st).

Definition count_dropped (st : stats) : stats :=
  mkStats (input_lines st) (input_bytes st) (output_lines st) (output_bytes st)
    (dropped_records st + 1).

Definition count_output (st : stats) (output_line : string) : stats :=
  mkStats (input_lines st) (input_bytes st) (output_lines st + 1)
    (output_bytes st + String.length output_line) (dropped_records st).

Definition newline : string := String (ascii_of_nat 10) EmptyString.

(** The loop that writes the outputs of one input line. *)
Fixpoint write_outputs (outputs : list dict) (st : stats)
  (output_file : list string) : stats * list string :=
  match outputs with
  | [] => (st, output_file)
  | output :: rest =>
      let output_line := (json_dumps output ++ newline)%string in
      write_outputs rest (count_output st output_line)
        (output_file ++ [output_line])
  end.

(** One turn of the loop of [streamline]. *)
Definition streamline_step (s : state) (line : string) : outcome state :=
  let st := count_line (st_stats s) line in
  let tool_uses := st_tool_uses s in
  match json_loads line with
  | None => Ok (mkState st tool_uses (st_output_file s))
  | Some record =>
      record_type <- py_get record "type" JNull ;;
      if py_eq_str record_type "file-history-snapshot"
         || py_eq_str record_type "queue-operation" then
        Ok (mkState (count_dropped st) tool_uses (st_output_file s))
      else if py_eq_str record_type "assistant" then
        message <- py_get record "message" (JObj []) ;;
        content <- py_get message "content" (JArr []) ;;
        r <- process_assistant_message content tool_uses ;;
        let (st', file') := write_outputs (fst r) st (st_output_file s) in
        Ok (mkState st' (snd r) file')
      else if py_eq_str record_type "user" then
        message <- py_get record "message" (JObj []) ;;
        content <- py_get message "content" (JArr []) ;;
        outputs <- process_user_message content tool_uses ;;
        let (st', file') := write_outputs outputs st (st_output_file s) in
        Ok (mkState st' tool_uses file')
      else
        Ok (mkState (count_dropped st) tool_uses (st_output_file s))
  end.

Fixpoint streamline_loop (input_file : list string) (s : state) : outcome state :=
  match input_file with
  | [] => Ok s
  | line :: rest =>
      s' <- streamline_step s line ;;
      streamline_loop rest s'
  end.

Definition initial_state : state := mkState (mkStats 0 0 0 0 0) [] [].

(** Returns the counters, and with them the lines written. *)
Definition streamline (input_file : list string) : outcome (stats * list string) :=
  s <- streamline_loop input_file initial_state ;;
  Ok (st_stats s, st_output_file s).

End Streamline.

(* ================================================================== *)
(** ** The stats report of [main] *)

(** [a / b] on two counters, as an exact fraction. *)
Definition py_truediv (a b : nat) : outcome Q :=
  match b with
  | O => Raise ZeroDivisionError
  | S _ => Ok (Z.of_nat a # Pos.of_nat b)
  end.

(** [stats["input_bytes"] / stats["output_bytes"] if stats["output_bytes"] else 0] *)
Definition reduction (st : stats) : outcome Q :=
  if py_truthy (JInt (Z.of_nat (output_bytes st)))
  then py_truediv (input_bytes st) (output_bytes st)
  else Ok 0%Q.

(* ================================================================== *)
(** ** Vocabulary of the statements *)

(** The branch of [simplify_tool_use] that a tool name selects. *)
Inductive tool_rule : Type :=
| RuleTarget
| RuleBash
| RuleGrep
| RuleGlob
| RuleTask
| RuleTodoWrite
| RuleMcp
| RuleFallback.

Definition rule_of (name : string) : tool_rule :=
  if (name =? "Read")%string then RuleTarget
  else if (name =? "Edit")%string then RuleTarget
  else if (name =? "Write")%string then RuleTarget
  else if (name =? "Bash")%string then RuleBash
  else if (name =? "Grep")%string then RuleGrep
  else if (name =? "Glob")%string then RuleGlob
  else if (name =? "Task")%string then RuleTask
  else if (name =? "TodoWrite")%string then RuleTodoWrite
  else if prefix "mcp__" name then RuleMcp
  else RuleFallback.

(** The fields a rule sets unconditionally from one payload key with [""]
    as the default, as (field, key). *)
Definition string_fields (name : string) : list (string * string) :=
  match rule_of name with
  | RuleTarget => [("target", "file_path")]
  | RuleBash => [("cmd", "command")]
  | RuleGrep => [("pattern", "pattern")]
  | RuleGlob => [("pattern", "pattern")]
  | RuleTask => [("desc", "description"); ("agent", "subagent_type")]
  | RuleTodoWrite | RuleMcp | RuleFallback => []
  end.

(** [len(v)] is defined and at most [n]. *)
Definition py_len_le (n : nat) (v : json) : bool :=
  match py_len v with
  | Ok m => m <=? n
  | Raise _ => false
  end.

(** A [str] of at most [n] characters. *)
Definition str_within (n : nat) (v : json) : bool :=
  match v with
  | JStr s => String.length s <=? n
  | _ => false
  end.


(** Strings put end to end, with nothing between them. *)
Definition str_concat (texts : list string) : string :=
  fold_right String.append EmptyString texts.

(** The [user] record for a collapsed text: none when the text is empty. *)
Definition user_records (text : string) : list dict :=
  if str_nonempty text
  then [[("type", JStr "user"); ("text", JStr text)]]
  else [].

(** The [tool_result] blocks of a content sequence, in order. *)
Fixpoint tool_result_blocks (items : list json) : list dict :=
  match items with
  | [] => []
  | JObj item :: rest =>
      if py_eq_str (dict_get item "type" JNull) "tool_result"
      then item :: tool_result_blocks rest
      else tool_result_blocks rest
  | _ :: rest => tool_result_blocks rest
  end.

(** A reduced tool result as an output record. *)
Definition result_record (r : dict) : dict := ("type", JStr "result") :: r.

(** A record type that the pass counts as dropped: one of the two excluded
    types, or anything that is neither [assistant] nor [user]. *)
Definition is_dropped_type (record_type : json) : bool :=
  py_eq_str record_type "file-history-snapshot"
  || py_eq_str record_type "queue-operation"
  || negb (py_eq_str record_type "assistant" || py_eq_str record_type "user").

(** An input line that parses and whose record has a dropped type. *)
Definition counts_as_dropped (json_loads : string -> option json)
  (line : string) : bool :=
  match json_loads line with
  | Some (JObj record) => is_dropped_type (dict_get record "type" JNull)
  | _ => false
  end.

(** The line written for an output record. *)
Definition output_line_of (json_dumps : dict -> string) (output : dict) : string :=
  (json_dumps output ++ newline)%string.

(** What the caller of [streamline] observes of a state: counters and file. *)
Definition observable (s : outcome state) : outcome (stats * list string) :=
  match s with
  | Ok s => Ok (st_stats s, st_output_file s)
  | Raise e => Raise e
  end.

(** The records a processor hands back, without the registry. *)
Definition emitted (r : outcome (list dict * registry)) : outcome (list dict) :=
  match r with
  | Ok p => Ok (fst p)
  | Raise e => Raise e
  end.

(** The output counters agree with the file: one line counted per line
    written, the byte counter is the total length, no line is empty. *)
Definition counters_match_file (s : state) : Prop :=
  output_lines (st_stats s) = List.length (st_output_file s)
  /\ output_bytes (st_stats s) = list_sum (map String.length (st_output_file s))
  /\ Forall (fun l => 1 <= String.length l) (st_output_file s).

(** *** Cutting and trimming, said without the code's own functions *)

(** The characters Python counts as whitespace, by code point: tab to
    carriage return, the four separators, space, next line and no-break
    space. *)
Definition whitespace_codes : list nat :=
  [9; 10; 11; 12; 13; 28; 29; 30; 31; 32; 133; 160].

Definition whitespace (c : ascii) : bool :=
  existsb (Nat.eqb (nat_of_ascii c)) whitespace_codes.

Fixpoint all_whitespace (s : string) : bool :=
  match s with
  | EmptyString => true
  | String c rest => whitespace c && all_whitespace rest
  end.

(** Whether a string starts, or ends, with a whitespace character. *)
Definition starts_with_whitespace (s : string) : bool :=
  match s with
  | EmptyString => false
  | String c _ => whitespace c
  end.

Fixpoint ends_with_whitespace (s : string) : bool :=
  match s with
  | EmptyString => false
  | String c EmptyString => whitespace c
  | String _ rest => ends_with_whitespace rest
  end.

(** [t] is [s] without its surrounding whitespace: [s] is [t] between two
    runs of whitespace, and [t] neither starts nor ends with whitespace. *)
Definition is_strip_of (s t : string) : Prop :=
  exists before after,
    s = (before ++ t ++ after)%string
    /\ all_whitespace before = true
    /\ all_whitespace after = true
    /\ starts_with_whitespace t = false
    /\ ends_with_whitespace t = false.

(** [e] is [s] cut at [n] characters: the start of [s], as long as [s]
    when [s] has at most [n] characters and [n] long otherwise. *)
Definition is_cut_of (n : nat) (s e : string) : Prop :=
  String.length e = Nat.min n (String.length s)
  /\ exists rest, s = (e ++ rest)%string.

(** The [user] record of a text: none for the empty text. *)
Definition user_record_for (text : string) : list dict :=
  match text with
  | EmptyString => []
  | String _ _ => [[("type", JStr "user"); ("text", JStr text)]]
  end.

(** A block whose text the collapser takes: a bare string, or a dict typed
    [text]. *)
Definition carries_text (block : json) : bool :=
  match block with
  | JStr _ => true
  | JObj d => py_eq_str (dict_get d "type" JNull) "text"
  | _ => false
  end.

(** The text of such a block: the string itself, or the dict's [text]
    ([""] when it has none). *)
Definition carried_text (block : json) : json :=
  match block with
  | JObj d => dict_get d "text" (JStr "")
  | other => other
  end.

(** *** The truncation bounds, read off an output record *)

(** A check on a field that holds when the field is absent. *)
Definition field_ok (output : dict) (field : string) (check : json -> bool) : bool :=
  match dict_lookup output field with
  | Some v => check v
  | None => true
  end.

(** At most 5 item texts, each of length at most 50. *)
Definition todos_within (v : json) : bool :=
  match v with
  | JArr texts => (List.length texts <=? 5) && forallb (py_len_le 50) texts
  | _ => false
  end.

(** At most 3 parameters, each a string of at most 100 characters. *)
Definition params_within (v : json) : bool :=
  match v with
  | JObj params =>
      (List.length params <=? 3)
      && forallb (fun kv => str_within 100 (snd kv)) params
  | _ => false
  end.

(** The bound of the rule that the record's tool name selects; the rules
    for Read, Edit, Write, Glob and Task set no bound. *)
Definition tool_use_within_bounds (output : dict) : bool :=
  match dict_get output "tool" JNull with
  | JStr name =>
      match rule_of name with
      | RuleBash => field_ok output "cmd" (py_len_le 203)
      | RuleGrep => field_ok output "pattern" (py_len_le 100)
      | RuleTodoWrite => field_ok output "todos" todos_within
      | RuleMcp => field_ok output "params" params_within
      | RuleFallback =>
          forallb (fun key => field_ok output key (str_within 200))
            ["file_path"; "path"; "query"; "url"]
      | RuleTarget | RuleGlob | RuleTask => true
      end
  | _ => true
  end.

Definition record_within_bounds (output : dict) : bool :=
  let type := dict_get output "type" JNull in
  if py_eq_str type "tool_use" then tool_use_within_bounds output
  else if py_eq_str type "result" then field_ok output "error" (py_len_le 200)
  else true.

(** A [tool_use] output record. *)
Definition tool_use_record (simplified : dict) : dict :=
  ("type", JStr "tool_use") :: simplified.

(* ================================================================== *)
(** ** A sample transcript *)

(** Instances of the three library functions, and a short transcript, for
    running the model.  [Sample.str] and [Sample.dumps] agree with Python on
    the values of this transcript (strings without characters to escape,
    integers, booleans, null, lists and dicts of them); [Sample.loads] knows
    the lines of this transcript and rejects every other line. *)
Module Sample.

Definition quote : string := String (ascii_of_nat 34) EmptyString.

Fixpoint repeat_char (c : ascii) (n : nat) : string :=
  match n with
  | O => EmptyString
  | S n' => String c (repeat_char c n')
  end.

Definition str (v : json) : string :=
  match v with
  | JStr s => s
  | JNull => "None"
  | JBool true => "True"
  | JBool false => "False"
  | JInt n => NilZero.string_of_int (Z.to_int n)
  | _ => EmptyString
  end.

Fixpoint dumps_value (v : json) : string :=
  match v with
  | JNull => "null"
  | JBool true => "true"
  | JBool false => "false"
  | JInt n => NilZero.string_of_int (Z.to_int n)
  | JFloat _ => "null"
  | JStr s => quote ++ s ++ quote
  | JArr items =>
      "[" ++ (fix elements (l : list json) : string :=
                match l with
                | [] => ""
                | x :: rest =>
                    dumps_value x
                    ++ match rest with [] => "" | _ :: _ => "," ++ elements rest end
                end) items ++ "]"
  | JObj fields =>
      "{" ++ (fix members (l : list (string * json)) : string :=
                match l with
                | [] => ""
                | (k, x) :: rest =>
                    quote ++ k ++ quote ++ ":" ++ dumps_value x
                    ++ match rest with [] => "" | _ :: _ => "," ++ members rest end
                end) fields ++ "}"
  end%string.

Definition dumps (d : dict) : string := dumps_value (JObj d).

Definition record (type : string) (content : json) : json :=
  JObj [("type", JStr type); ("message", JObj [("content", content)])].

Definition long_command : string := repeat_char "a" 250.

Definition bash_block : dict :=
  [("type", JStr "tool_use"); ("id", JStr "t1"); ("name", JStr "Bash");
   ("input", JObj [("command", JStr long_command)])].

Definition grep_block : dict :=
  [("type", JStr "tool_use"); ("id", JStr "g1"); ("name", JStr "Grep");
   ("input", JObj [("pattern", JStr "TODO")])].

Definition task_block : dict :=
  [("type", JStr "tool_use"); ("id", JStr "k1"); ("name", JStr "Task");
   ("input", JObj [("description", JStr "survey")])].

Definition todo_block : dict :=
  [("type", JStr "tool_use"); ("id", JStr "w1"); ("name", JStr "TodoWrite");
   ("input", JObj [])].

Definition fetch_block : dict :=
  [("type", JStr "tool_use"); ("id", JStr "f1"); ("name", JStr "WebFetch");
   ("input", JObj [("prompt", JStr "read it")])].

Definition failed_result : dict :=
  [("type", JStr "tool_result"); ("tool_use_id", JStr "t1");
   ("is_error", JBool true); ("content", JStr "boom")].

Definition interleaved_content : json :=
  JArr [JObj failed_result; JStr "o";
        JObj [("type", JStr "tool_result"); ("tool_use_id", JStr "g1")];
        JObj [("type", JStr "text"); ("text", JStr "k ")]].

Definition records : list json :=
  [JObj [("type", JStr "file-history-snapshot")];
   record "user" (JStr "  fix the build  ");
   record "assistant"
     (JArr [JObj [("type", JStr "text"); ("text", JStr "  Hello  ")];
            JObj [("type", JStr "thinking"); ("thinking", JStr "hm")];
            JObj bash_block; JObj grep_block]);
   record "user" interleaved_content;
   record "assistant" (JStr "plain");
   JObj [("type", JStr "summary")]].

Definition line_of (r : json) : string := (dumps_value r ++ newline)%string.

Definition garbage : string := ("not json" ++ newline)%string.

Definition loads (line : string) : option json :=
  find (fun r => (line_of r =? line)%string) records.

Definition input_file : list string :=
  garbage :: map line_of records.

(** The pass over [input_file]; empty if it raised. *)
Definition run : stats * list string :=
  match streamline str loads dumps input_file with
  | Ok r => r
  | Raise _ => (mkStats 0 0 0 0 0, [])
  end.

End Sample.

(* ================================================================== *)
(** ** Vocabulary of the further properties *)

(** A block the assistant processor looks at: a dict typed [text] or
    [tool_use]. *)
Definition is_assistant_block (item : json) : bool :=
  match item with
  | JObj d =>
      py_eq_str (dict_get d "type" JNull) "text"
      || py_eq_str (dict_get d "type" JNull) "tool_use"
  | _ => false
  end.

(** An output record typed [tool_use]. *)
Definition is_tool_use_record (output : dict) : bool :=
  py_eq_str (dict_get output "type" JNull) "tool_use".

(** A block the assistant processor gets through: a text block with a string
    text, a tool_use block that simplifies and has a hashable id, or any
    block it skips. *)
Definition assistant_block_ok (py_str : json -> string) (item : json) : bool :=
  match item with
  | JObj d =>
      if py_eq_str (dict_get d "type" JNull) "text" then
        match dict_get d "text" (JStr "") with
        | JStr _ => true
        | _ => false
        end
      else if py_eq_str (dict_get d "type" JNull) "tool_use" then
        match simplify_tool_use py_str d with
        | Ok _ => py_hashable (dict_get d "id" (JStr ""))
        | Raise _ => false
        end
      else true
  | _ => true
  end.

(** A value that [v[:n]] accepts. *)
Definition sliceable (v : json) : bool :=
  match v with
  | JStr _ | JArr _ => true
  | _ => false
  end.

(** The layout of an output record: [type] first, then the fixed fields of
    that type, in this order. *)
Definition record_layout_ok (output : dict) : bool :=
  match output with
  | ("type", JStr "assistant") :: [("text", JStr _)] => true
  | ("type", JStr "user") :: [("text", JStr _)] => true
  | ("type", JStr "tool_use") :: ("tool", JStr _) :: ("id", _) :: _ => true
  | ("type", JStr "result") :: ("id", _) :: ("ok", JBool _) :: _ => true
  | _ => false
  end.

(** The text of an [assistant] or [user] record is not empty and neither
    starts nor ends with a whitespace character; the other records are not
    concerned. *)
Definition record_text_trimmed (output : dict) : bool :=
  let type := dict_get output "type" JNull in
  if py_eq_str type "assistant" || py_eq_str type "user" then
    match dict_lookup output "text" with
    | Some (JStr (String c rest)) =>
        negb (starts_with_whitespace (String c rest))
        && negb (ends_with_whitespace (String c rest))
    | _ => false
    end
  else true.

(** A line on which the loop writes nothing: it does not parse, or it parses
    to an object with a dropped type. *)
Definition writes_nothing (json_loads : string -> option json)
  (line : string) : bool :=
  match json_loads line with
  | None => true
  | Some (JObj record) => is_dropped_type (dict_get record "type" JNull)
  | Some _ => false
  end.

(** The lines a pass wrote, or the exception that ended it. *)
Definition written (r : outcome (stats * list string)) : outcome (list string) :=
  match r with
  | Ok p => Ok (snd p)
  | Raise e => Raise e
  end.

(** The typing that lets a rule of the simplifier go through: a string
    command for Bash, a string pattern for Grep, and for TodoWrite a list
    whose first five items are dicts with a string content.  The other rules
    ask nothing of the payload's values. *)
Definition payload_well_typed (name : string) (payload : dict) : bool :=
  match rule_of name with
  | RuleBash =>
      match dict_get payload "command" (JStr "") with
      | JStr _ => true
      | _ => false
      end
  | RuleGrep =>
      match dict_get payload "pattern" (JStr "") with
      | JStr _ => true
      | _ => false
      end
  | RuleTodoWrite =>
      match dict_get payload "todos" (JArr []) with
      | JArr todos =>
          forallb
            (fun t =>
               match t with
               | JObj d =>
                   match dict_get d "content" (JStr "") with
                   | JStr _ => true
                   | _ => false
                   end
               | _ => false
               end) (firstn 5 todos)
      | _ => false
      end
  | _ => true
  end.

(** The payload value that takes the place of the invocation id: in the
    fallback rule, the payload's [id] when no probe key before it is there. *)
Definition id_shadowed (name : string) (inp : json) : option json :=
  match rule_of name, inp with
  | RuleFallback, JObj payload =>
      match dict_lookup payload "file_path", dict_lookup payload "path",
            dict_lookup payload "query", dict_lookup payload "url" with
      | None, None, None, None => dict_lookup payload "id"
      | _, _, _, _ => None
      end
  | _, _ => None
  end.

(** One parameter of an mcp__ record. *)
Definition mcp_param (py_str : json -> string) (kv : string * json)
  : string * json :=
  (fst kv, JStr (str_take 100 (py_str (snd kv)))).

(** The part of a state that later output can depend on: the registry and
    the file. *)
Definition registry_and_file (s : outcome state)
  : outcome (registry * list string) :=
  match s with
  | Ok s => Ok (st_tool_uses s, st_output_file s)
  | Raise e => Raise e
  end.

(** A todo item whose content is the string [content]. *)
Definition todo_with_content (t : json) (content : string) : Prop :=
  exists d, t = JObj d /\ dict_get d "content" (JStr "") = JStr content.

(** [tool_uses.get(key)] for a hashable key, as a [dict] finds it. *)
Fixpoint registry_get (tool_uses : registry) (key : json) : option dict :=
  match tool_uses with
  | [] => None
  | (k, v) :: rest => if py_key_eq k key then Some v else registry_get rest key
  end.

(** The simplified record of the last [tool_use] block of a content
    sequence whose id is the key [key], if there is one. *)
Fixpoint latest_tool_use (py_str : json -> string) (items : list json)
  (key : json) : option dict :=
  match items with
  | [] => None
  | item :: rest =>
      match latest_tool_use py_str rest key with
      | Some r => Some r
      | None =>
          match item with
          | JObj d =>
              if py_eq_str (dict_get d "type" JNull) "tool_use"
                 && py_key_eq (dict_get d "id" (JStr "")) key
              then match simplify_tool_use py_str d with
                   | Ok r => Some r
                   | Raise _ => None
                   end
              else None
          | _ => None
          end
      end
  end.

(** Further sample inputs. *)
Module Cases.

Definition thinking_block : json :=
  JObj [("type", JStr "thinking"); ("thinking", JStr "hm")].

Definition text_block (text : string) : json :=
  JObj [("type", JStr "text"); ("text", JStr text)].

Definition lookup_block : dict :=
  [("type", JStr "tool_use"); ("id", JStr "u1"); ("name", JStr "Lookup");
   ("input", JObj [("limit", JInt 3); ("query", JStr "streamline");
                   ("id", JInt 42)])].

Definition shadowed_block : dict :=
  [("type", JStr "tool_use"); ("id", JStr "u2"); ("name", JStr "Lookup");
   ("input", JObj [("id", JInt 42)])].

Definition mcp_block : dict :=
  [("type", JStr "tool_use"); ("id", JStr "m1"); ("name", JStr "mcp__db__query");
   ("input", JObj [("sql", JStr "select 1"); ("limit", JInt 10);
                   ("dry", JBool true); ("tag", JStr "x")])].

Definition bad_result : dict :=
  [("type", JStr "tool_result"); ("tool_use_id", JStr "t9");
   ("is_error", JBool true); ("content", JArr [JObj [("text", JInt 7)]])].

Definition todo (content : string) : json :=
  JObj [("content", JStr content); ("status", JStr "pending")].

Definition todo_block : dict :=
  [("type", JStr "tool_use"); ("id", JStr "w2"); ("name", JStr "TodoWrite");
   ("input",
    JObj [("todos",
           JArr [todo "one"; todo "two"; todo "three"; todo "four"; todo "five";
                 JInt 6; todo "seven"])])].


(** Text blocks among tool results and a thinking block, with whitespace at
    both ends of the collected text. *)
Definition spaced_content : json :=
  JArr [JObj Sample.failed_result; JStr "  o";
        JObj [("type", JStr "thinking"); ("text", JStr "hidden")];
        JObj [("type", JStr "tool_result"); ("tool_use_id", JStr "g1")];
        JObj [("type", JStr "text"); ("text", JStr " k ")]; JInt 5].

(** Two tool uses without an id. *)
Definition anonymous_content : json :=
  JArr [JObj [("type", JStr "tool_use"); ("name", JStr "Read");
              ("input", JObj [("file_path", JStr "/a")])];
        JObj [("type", JStr "tool_use"); ("name", JStr "Read");
              ("input", JObj [("file_path", JStr "/b")])]].

Definition mixed_content : json :=
  JArr [text_block " hi "; thinking_block; JStr "x"; JObj Sample.grep_block].

Definition first_lines : list string := firstn 3 Sample.input_file.

Definition last_lines : list string := skipn 3 Sample.input_file.

Definition array_line : string := ("[1]" ++ newline)%string.

(** Knows the sample transcript, and one line that is valid JSON but not an
    object. *)
Definition loads (line : string) : option json :=
  if (line =? array_line)%string then Some (JArr [JInt 1]) else Sample.loads line.

End Cases.

(* ================================================================== *)
(** * Properties *)

(** ** Strings and dictionaries *)

Lemma str_length_app (s t : string) :
  String.length (s ++ t)%string = String.length s + String.length t.
Proof.
  induction s as [|c s IH]; simpl; [reflexivity | now rewrite IH].
Qed.

Lemma str_take_length (n : nat) (s : string) :
  String.length (str_take n s) = Nat.min n (String.length s).
Proof.
  revert s; induction n as [|n IH]; intros [|c s]; simpl; try reflexivity.
  now rewrite IH.
Qed.

Lemma str_take_le (n : nat) (s : string) : String.length (str_take n s) <= n.
Proof. rewrite str_take_length. apply Nat.le_min_l. Qed.


Lemma dict_get_absent (d : dict) (k : string) (default : json) :
  dict_lookup d k = None -> dict_get d k default = default.
Proof. unfold dict_get. now intros ->. Qed.

(** ** Cutting and trimming: the code's functions meet their description *)

Lemma is_space_whitespace (c : ascii) : is_space c = whitespace c.
Proof. destruct c as [[] [] [] [] [] [] [] []]; reflexivity. Qed.

Lemma str_take_is_cut (n : nat) (s : string) : is_cut_of n s (str_take n s).
Proof.
  split; [apply str_take_length|].
  revert s. induction n as [|n IH]; intros [|c s]; cbn [str_take].
  - now exists EmptyString.
  - now exists (String c s).
  - now exists EmptyString.
  - destruct (IH s) as (rest & Hrest). exists rest. cbn. now rewrite <- Hrest.
Qed.



Lemma lstrip_split (s : string) :
  exists before,
    s = (before ++ lstrip s)%string
    /\ all_whitespace before = true
    /\ starts_with_whitespace (lstrip s) = false.
Proof.
  induction s as [|c s (before & Hs & Hws & Hstart)].
  - now exists EmptyString.
  - cbn [lstrip]. destruct (is_space c) eqn:Hc.
    + exists (String c before).
      cbn [String.append all_whitespace]. rewrite <- Hs.
      rewrite <- is_space_whitespace, Hc. now repeat split.
    + exists EmptyString.
      cbn [String.append all_whitespace starts_with_whitespace].
      rewrite <- is_space_whitespace. now repeat split.
Qed.

Lemma rstrip_split (s : string) :
  exists after,
    s = (rstrip s ++ after)%string
    /\ all_whitespace after = true
    /\ ends_with_whitespace (rstrip s) = false.
Proof.
  induction s as [|c s (after & Hs & Hws & Hend)].
  - now exists EmptyString.
  - cbn [rstrip]. destruct (rstrip s) as [|c' r] eqn:Er.
    + cbn [String.append] in Hs. subst after.
      destruct (is_space c) eqn:Hc.
      * exists (String c s).
        cbn [String.append all_whitespace ends_with_whitespace].
        rewrite <- is_space_whitespace, Hc. now repeat split.
      * exists s.
        cbn [String.append all_whitespace ends_with_whitespace].
        rewrite <- is_space_whitespace. now repeat split.
    + exists after. cbn [String.append]. rewrite Hs at 1. now repeat split.
Qed.

Lemma rstrip_keeps_start (s : string) :
  starts_with_whitespace s = false ->
  starts_with_whitespace (rstrip s) = false.
Proof.
  destruct s as [|c s]; [reflexivity|]. cbn [rstrip starts_with_whitespace].
  intros Hc. destruct (rstrip s); [| exact Hc].
  rewrite is_space_whitespace, Hc. exact Hc.
Qed.

(** [strip] returns the string without its surrounding whitespace. *)
Lemma str_strip_is_strip (s : string) : is_strip_of s (str_strip s).
Proof.
  unfold str_strip.
  destruct (lstrip_split s) as (before & Hs & Hbefore & Hstart).
  destruct (rstrip_split (lstrip s)) as (after & Hu & Hafter & Hend).
  exists before, after. repeat split; try assumption.
  - rewrite Hs at 1. now rewrite Hu at 1.
  - now apply rstrip_keeps_start.
Qed.

Lemma lstrip_all_whitespace (s : string) :
  all_whitespace s = true -> lstrip s = EmptyString.
Proof.
  induction s as [|c s IH]; [reflexivity|]. cbn [all_whitespace lstrip].
  intros H. apply andb_true_iff in H. destruct H as [Hc Hs].
  rewrite is_space_whitespace, Hc. now apply IH.
Qed.

Lemma lstrip_app_whitespace (before u : string) :
  all_whitespace before = true -> lstrip (before ++ u)%string = lstrip u.
Proof.
  induction before as [|c before IH]; [reflexivity|].
  cbn [all_whitespace String.append lstrip].
  intros H. apply andb_true_iff in H. destruct H as [Hc Hs].
  rewrite is_space_whitespace, Hc. now apply IH.
Qed.

Lemma rstrip_all_whitespace (s : string) :
  all_whitespace s = true -> rstrip s = EmptyString.
Proof.
  induction s as [|c s IH]; [reflexivity|]. cbn [all_whitespace rstrip].
  intros H. apply andb_true_iff in H. destruct H as [Hc Hs].
  rewrite (IH Hs), is_space_whitespace, Hc. reflexivity.
Qed.

Lemma rstrip_app_whitespace (t after : string) :
  all_whitespace after = true -> rstrip (t ++ after)%string = rstrip t.
Proof.
  intros Hafter. induction t as [|c t IH].
  - cbn. now apply rstrip_all_whitespace.
  - cbn [String.append rstrip]. now rewrite IH.
Qed.

Lemma rstrip_fixed (t : string) :
  ends_with_whitespace t = false -> rstrip t = t.
Proof.
  induction t as [|c t IH]; [reflexivity|].
  cbn [rstrip]. destruct t as [|c' r].
  - cbn [ends_with_whitespace rstrip]. intros Hc.
    now rewrite is_space_whitespace, Hc.
  - intros Hend. rewrite IH; [reflexivity | exact Hend].
Qed.

(** The string without its surrounding whitespace is what [strip] returns,
    and nothing else. *)
Lemma is_strip_of_unique (s t : string) : is_strip_of s t -> t = str_strip s.
Proof.
  intros (before & after & -> & Hbefore & Hafter & Hstart & Hend).
  unfold str_strip. rewrite lstrip_app_whitespace by assumption.
  destruct t as [|c t].
  - cbn [String.append]. now rewrite lstrip_all_whitespace.
  - cbn [starts_with_whitespace] in Hstart.
    cbn [String.append lstrip]. rewrite is_space_whitespace, Hstart.
    change (String c (t ++ after)%string) with (String c t ++ after)%string.
    rewrite rstrip_app_whitespace by assumption.
    symmetry. now apply rstrip_fixed.
Qed.

Lemma user_records_for (text : string) : user_records text = user_record_for text.
Proof. now destruct text. Qed.

(** The parts the collapser collects are the texts of the bare strings and
    of the dicts typed [text], in block order. *)
Lemma text_parts_carried (items : list json) :
  text_parts items = map carried_text (filter carries_text items).
Proof.
  induction items as [|item items IH]; [reflexivity|].
  destruct item; cbn [text_parts filter carries_text map carried_text];
    try exact IH.
  - now rewrite IH.
  - destruct (py_eq_str _ "text"); cbn [map carried_text]; now rewrite IH.
Qed.

(** ** Bash commands (C6) *)

Section Simplifier.

Variable py_str : json -> string.


End Simplifier.

(** ** The simplifier, rule by rule *)

Section SimplifierRules.

Variable py_str : json -> string.

(** What [simplify_tool_use] computes once the tool name is known to be the
    string [name]: the record it returns, written out field by field. *)
Lemma simplify_tool_use_dispatch (tool_use : dict) (name : string) :
  dict_get tool_use "name" (JStr "unknown") = JStr name ->
  simplify_tool_use py_str tool_use =
    let inp := dict_get tool_use "input" (JObj []) in
    let base := [("tool", JStr name); ("id", dict_get tool_use "id" (JStr ""))] in
    match rule_of name with
    | RuleTarget =>
        v <- py_get inp "file_path" (JStr "") ;;
        Ok (base ++ [("target", v)])
    | RuleBash =>
        cmd <- py_get inp "command" (JStr "") ;;
        n <- py_len cmd ;;
        c <- (if 200 <? n
              then (head <- py_slice 200 cmd ;; py_add_str head "...")
              else Ok cmd) ;;
        Ok (base ++ [("cmd", c)])
    | RuleGrep =>
        p <- py_get inp "pattern" (JStr "") ;;
        p' <- py_slice 100 p ;;
        path <- py_get inp "path" JNull ;;
        Ok (base ++ ("pattern", p')
                 :: (if py_truthy path then [("path", path)] else []))
    | RuleGlob =>
        p <- py_get inp "pattern" (JStr "") ;;
        Ok (base ++ [("pattern", p)])
    | RuleTask =>
        d <- py_get inp "description" (JStr "") ;;
        a <- py_get inp "subagent_type" (JStr "") ;;
        Ok (base ++ [("desc", d); ("agent", a)])
    | RuleTodoWrite =>
        todos <- py_get inp "todos" (JArr []) ;;
        first5 <- py_slice 5 todos ;;
        ts <- py_iter first5 ;;
        texts <- mapM (fun t => c <- py_get t "content" (JStr "") ;; py_slice 50 c) ts ;;
        Ok (base ++ [("todos", JArr texts)])
    | RuleMcp =>
        items <- py_items inp ;;
        Ok (base ++ [("params", JObj (mcp_params py_str (firstn 3 items)))])
    | RuleFallback => fallback_probe py_str probe_keys inp base
    end.
Proof.
  intros Hname. unfold simplify_tool_use, rule_of. rewrite Hname.
  cbn [py_eq_str py_startswith bind]. cbv zeta.
  set (inp := dict_get tool_use "input" (JObj [])).
  destruct (name =? "Read")%string; [destruct inp; reflexivity |].
  destruct (name =? "Edit")%string; [destruct inp; reflexivity |].
  destruct (name =? "Write")%string; [destruct inp; reflexivity |].
  destruct (name =? "Bash")%string; [destruct inp; reflexivity |].
  destruct (name =? "Grep")%string.
  { destruct inp as [| b | z | f | s | l | payload]; try reflexivity.
    cbn [py_get bind].
    destruct (py_slice 100 (dict_get payload "pattern" (JStr ""))); [|reflexivity].
    cbn [bind]. destruct (py_truthy (dict_get payload "path" JNull)); reflexivity. }
  destruct (name =? "Glob")%string; [destruct inp; reflexivity |].
  destruct (name =? "Task")%string; [destruct inp; reflexivity |].
  destruct (name =? "TodoWrite")%string; [destruct inp; reflexivity |].
  destruct (prefix "mcp__" name); [destruct inp; reflexivity | reflexivity].
Qed.

End SimplifierRules.

(** Inverts [x <- m ;; k = Ok r] for every bind in hypothesis [H]. *)
Ltac bind_inv H :=
  repeat match type of H with
  | bind ?m _ = Ok _ =>
      let E := fresh "E" in
      destruct m eqn:E; cbn [bind] in H; [| discriminate H]
  | (if ?b then _ else _) = Ok _ =>
      let E := fresh "E" in destruct b eqn:E
  | Raise _ = Ok _ => discriminate H
  end.

Ltac ok_inv H := bind_inv H; injection H as H; subst.

(** ** Presence of the tool-specific fields (C1) *)

Section FieldPresence.

Variable py_str : json -> string.

(** C1, as the code has it.  Take a tool_use block whose name is a string and
    whose payload is a dict.  The fields of [string_fields] (target, cmd,
    pattern, desc, agent) are in every record the simplifier returns, and
    when their key is absent from the payload the simplifier returns a record
    holding the empty string for them.  The other fields follow other
    rules: Grep's path is present exactly when the payload's path is truthy;
    TodoWrite's todos is the empty list when the key is absent; an
    mcp__ tool with an empty payload gets an empty params mapping; the
    fallback rule adds no field when no probe key is in the payload. *)
Theorem simplify_fields_present (tool_use payload : dict) (name : string) :
  dict_get tool_use "name" (JStr "unknown") = JStr name ->
  dict_get tool_use "input" (JObj []) = JObj payload ->
  let base := [("tool", JStr name); ("id", dict_get tool_use "id" (JStr ""))] in
  (forall field key r,
      In (field, key) (string_fields name) ->
      simplify_tool_use py_str tool_use = Ok r ->
      exists v, dict_lookup r field = Some v)
  /\ (forall field key,
      In (field, key) (string_fields name) ->
      dict_lookup payload key = None ->
      exists r, simplify_tool_use py_str tool_use = Ok r
                /\ dict_lookup r field = Some (JStr ""))
  /\ (rule_of name = RuleGrep ->
      forall r, simplify_tool_use py_str tool_use = Ok r ->
      dict_lookup r "path" =
        (if py_truthy (dict_get payload "path" JNull)
         then Some (dict_get payload "path" JNull) else None))
  /\ (rule_of name = RuleTodoWrite ->
      dict_lookup payload "todos" = None ->
      simplify_tool_use py_str tool_use = Ok (base ++ [("todos", JArr [])]))
  /\ (rule_of name = RuleMcp ->
      payload = [] ->
      simplify_tool_use py_str tool_use = Ok (base ++ [("params", JObj [])]))
  /\ (rule_of name = RuleFallback ->
      (forall k, In k probe_keys -> dict_lookup payload k = None) ->
      simplify_tool_use py_str tool_use = Ok base).
Proof.
  intros Hname Hinp base.
  rewrite (simplify_tool_use_dispatch py_str tool_use name Hname).
  rewrite Hinp. cbv zeta. fold base. unfold string_fields.
  repeat split.
  - (* present in every returned record *)
    intros field key r Hin Hr.
    destruct (rule_of name); cbn [In] in Hin;
      repeat (destruct Hin as [Hin | Hin]; [injection Hin as <- <- |]);
      try contradiction; ok_inv Hr; eexists; reflexivity.
  - (* absent key: empty string *)
    intros field key Hin Habs.
    destruct (rule_of name); cbn [In] in Hin;
      repeat (destruct Hin as [Hin | Hin]; [injection Hin as <- <- |]);
      try contradiction; cbn [py_get bind];
      rewrite ?(dict_get_absent _ _ _ Habs).
    + eexists; split; reflexivity.
    + eexists; split; reflexivity.
    + cbn [py_slice bind str_take].
      eexists; split; [reflexivity|].
      destruct (py_truthy _); reflexivity.
    + eexists; split; reflexivity.
    + eexists; split; reflexivity.
    + eexists; split; reflexivity.
  - (* Grep's path *)
    intros Hrule r Hr. rewrite Hrule in Hr. cbn [py_get bind] in Hr.
    destruct (py_slice 100 _) in Hr; cbn [bind] in Hr; [| discriminate].
    injection Hr as <-.
    destruct (py_truthy _); reflexivity.
  - (* TodoWrite without todos *)
    intros Hrule Habs. rewrite Hrule. cbn [py_get bind].
    rewrite (dict_get_absent _ _ _ Habs). reflexivity.
  - (* mcp__ tools *)
    intros Hrule ->. rewrite Hrule. reflexivity.
  - (* fallback *)
    intros Hrule Habs. rewrite Hrule.
    unfold probe_keys. cbn [fallback_probe py_contains bind].
    repeat (rewrite Habs by (cbn; tauto)). reflexivity.
Qed.

End FieldPresence.

(** ** The tool-result reducer (C2) *)


(** ** The user content processor (C3) *)

Lemma py_join_strings (texts : list string) :
  py_join (map JStr texts) = Ok (str_concat texts).
Proof.
  induction texts as [|t texts IH]; simpl; [reflexivity|].
  now rewrite IH.
Qed.

Lemma py_join_inv (parts : list json) (joined : string) :
  py_join parts = Ok joined ->
  exists texts, parts = map JStr texts /\ joined = str_concat texts.
Proof.
  revert joined. induction parts as [|p parts IH]; intros joined H.
  - injection H as <-. now exists [].
  - destruct p; try discriminate H. cbn [py_join] in H.
    ok_inv H. destruct (IH _ eq_refl) as (texts & -> & ->).
    now exists (s :: texts).
Qed.

(** The records of the reducer never carry a [type] of their own, so the
    output record is the reduced record behind its [type]. *)
Lemma process_tool_result_record (tool_result : dict) (tool_uses : registry) (r : dict) :
  process_tool_result tool_result tool_uses = Ok r ->
  dict_update [("type", JStr "result")] r = result_record r.
Proof.
  unfold process_tool_result. intros H.
  destruct (py_truthy _).
  - destruct (dict_get tool_result "content" (JStr ""))
      as [| b | z | f | s | [| first rest] | d];
      try (injection H as <-; reflexivity).
    destruct first; try (injection H as <-; reflexivity).
    ok_inv H. reflexivity.
  - injection H as <-. reflexivity.
Qed.

Lemma user_results_loop_inv (items : list json) (tool_uses : registry) :
  forall outputs outs,
    user_results_loop items outputs tool_uses = Ok outs <->
    exists rs,
      mapM (fun b => process_tool_result b tool_uses) (tool_result_blocks items) = Ok rs
      /\ outs = outputs ++ map result_record rs.
Proof.
  induction items as [|item items IH]; intros outputs outs.
  - cbn. split.
    + intros H. injection H as <-. exists []. now rewrite app_nil_r.
    + intros (rs & H & ->). injection H as <-. now rewrite app_nil_r.
  - destruct item as [| b | z | f | s | l | d];
      try (cbn [user_results_loop tool_result_blocks]; apply IH).
    cbn [user_results_loop tool_result_blocks].
    destruct (py_eq_str (dict_get d "type" JNull) "tool_result"); [| apply IH].
    cbn [mapM].
    destruct (process_tool_result d tool_uses) as [r | e] eqn:Er; cbn [bind].
    + rewrite IH, (process_tool_result_record _ _ _ Er). split.
      * intros (rs & -> & ->). exists (r :: rs). split; [reflexivity|].
        now rewrite <- app_assoc.
      * intros (rs' & H & ->).
        destruct (mapM _ (tool_result_blocks items)) as [rs |]; [| discriminate].
        injection H as <-. exists rs. split; [reflexivity|].
        now rewrite <- app_assoc.
    + split; [discriminate | intros (rs & H & _); discriminate].
Qed.

(** What a successful run of the user processor returned. *)
Lemma process_user_message_inv (content : json) (tool_uses : registry)
  (outs : list dict) :
  process_user_message content tool_uses = Ok outs ->
  exists items texts rs,
    py_iter content = Ok items
    /\ text_parts items = map JStr texts
    /\ mapM (fun b => process_tool_result b tool_uses) (tool_result_blocks items) = Ok rs
    /\ outs = user_records (str_strip (str_concat texts)) ++ map result_record rs.
Proof.
  unfold process_user_message, extract_user_text, user_records. intros H.
  destruct (py_iter content) as [items |] eqn:Eit; [| discriminate].
  cbn [bind] in H.
  destruct (py_join (text_parts items)) as [joined |] eqn:Ej; [| discriminate].
  cbn [bind] in H.
  destruct (py_join_inv _ _ Ej) as (texts & Hparts & ->).
  apply user_results_loop_inv in H. destruct H as (rs & Hrs & ->).
  exists items, texts, rs. repeat split; try assumption.
  destruct (str_nonempty _); reflexivity.
Qed.

(** C3. The user processor returns records exactly when the content is
    iterable, every collected text is a string and every tool_result block
    reduces.  The collected texts are those of the blocks that are bare
    strings or dicts typed [text], in block order.  The processor returns
    the [user] record of their concatenation, nothing between them, without
    its surrounding whitespace (no record when that is empty), followed by
    one [result] record per tool_result block, in block order: the [user]
    record comes first wherever the text blocks stood among the tool_result
    blocks. *)
Theorem user_text_precedes_results (content : json) (tool_uses : registry)
  (outs : list dict) :
  process_user_message content tool_uses = Ok outs <->
  exists items texts rs text,
    py_iter content = Ok items
    /\ map carried_text (filter carries_text items) = map JStr texts
    /\ is_strip_of (str_concat texts) text
    /\ mapM (fun b => process_tool_result b tool_uses) (tool_result_blocks items) = Ok rs
    /\ outs = user_record_for text ++ map result_record rs.
Proof.
  split.
  - intros H. apply process_user_message_inv in H.
    destruct H as (items & texts & rs & Hit & Hparts & Hrs & ->).
    exists items, texts, rs, (str_strip (str_concat texts)).
    rewrite <- text_parts_carried, <- user_records_for.
    repeat split; try assumption. apply str_strip_is_strip.
  - intros (items & texts & rs & text & Hit & Hparts & Hstrip & Hrs & ->).
    rewrite <- text_parts_carried in Hparts.
    rewrite (is_strip_of_unique _ _ Hstrip), <- user_records_for.
    unfold process_user_message, extract_user_text, user_records.
    rewrite Hit. cbn [bind]. rewrite Hparts, py_join_strings. cbn [bind].
    apply user_results_loop_inv. exists rs. split; [assumption|].
    destruct (str_nonempty _); reflexivity.
Qed.

(** ** The pass: skipped lines and dropped records (C4, C5) *)

Section Pass.

Variable py_str : json -> string.
Variable json_loads : string -> option json.
Variable json_dumps : dict -> string.

Local Abbreviation step := (streamline_step py_str json_loads json_dumps).
Local Abbreviation loop := (streamline_loop py_str json_loads json_dumps).

Lemma write_outputs_spec (outputs : list dict) :
  forall st output_file,
    write_outputs json_dumps outputs st output_file =
    (mkStats (input_lines st) (input_bytes st)
       (output_lines st + List.length outputs)
       (output_bytes st
        + list_sum (map String.length (map (output_line_of json_dumps) outputs)))
       (dropped_records st),
     output_file ++ map (output_line_of json_dumps) outputs).
Proof.
  induction outputs as [|o outputs IH]; intros st output_file.
  - cbn. rewrite !Nat.add_0_r, app_nil_r. now destruct st.
  - cbn [write_outputs]. rewrite IH. cbn.
    rewrite <- app_assoc. unfold output_line_of, list_sum.
    f_equal; try reflexivity. f_equal; lia.
Qed.

(** C4. A line that is not valid JSON is counted as read (one more input
    line, its length more input bytes) and nothing else changes: nothing is
    written, nothing is counted as dropped, and the pass goes on with the
    next line. *)
Theorem invalid_json_line_skipped (s : state) (line : string) (rest : list string) :
  json_loads line = None ->
  exists s',
    step s line = Ok s'
    /\ st_output_file s' = st_output_file s
    /\ st_tool_uses s' = st_tool_uses s
    /\ dropped_records (st_stats s') = dropped_records (st_stats s)
    /\ output_lines (st_stats s') = output_lines (st_stats s)
    /\ output_bytes (st_stats s') = output_bytes (st_stats s)
    /\ input_lines (st_stats s') = input_lines (st_stats s) + 1
    /\ input_bytes (st_stats s') = input_bytes (st_stats s) + String.length line
    /\ loop (line :: rest) s = loop rest s'.
Proof.
  intros Hparse.
  exists (mkState (count_line (st_stats s) line) (st_tool_uses s) (st_output_file s)).
  assert (Hstep : step s line
                  = Ok (mkState (count_line (st_stats s) line) (st_tool_uses s)
                          (st_output_file s))).
  { unfold streamline_step. now rewrite Hparse. }
  repeat split; try reflexivity; try assumption.
  cbn [streamline_loop]. now rewrite Hstep.
Qed.

(** A line that parses to something other than an object ends the pass:
    [record.get] raises. *)
Lemma step_non_object_raises (s : state) (line : string) (record : json) :
  json_loads line = Some record ->
  (forall fields, record <> JObj fields) ->
  step s line = Raise AttributeError.
Proof.
  intros Hparse Hshape. unfold streamline_step. rewrite Hparse.
  destruct record; try reflexivity. now destruct (Hshape fields).
Qed.

Lemma step_dropped (s s' : state) (line : string) :
  step s line = Ok s' ->
  dropped_records (st_stats s') =
  dropped_records (st_stats s)
  + (if counts_as_dropped json_loads line then 1 else 0).
Proof.
  unfold streamline_step, counts_as_dropped, is_dropped_type.
  destruct (json_loads line) as [record |]; intros H.
  - destruct record as [| b | z | f | str | l | record]; try discriminate H.
    cbn [py_get bind] in H.
    set (record_type := dict_get record "type" JNull) in *.
    destruct (py_eq_str record_type "file-history-snapshot"
              || py_eq_str record_type "queue-operation") eqn:Edrop.
    + injection H as <-. reflexivity.
    + cbn [orb].
      destruct (py_eq_str record_type "assistant") eqn:Ea.
      * bind_inv H. rewrite write_outputs_spec in H.
        injection H as <-. cbn. lia.
      * destruct (py_eq_str record_type "user") eqn:Eu.
        -- bind_inv H. rewrite write_outputs_spec in H.
           injection H as <-. cbn. lia.
        -- injection H as <-. reflexivity.
  - injection H as <-. cbn. lia.
Qed.

Lemma loop_dropped (input_file : list string) :
  forall s s',
    loop input_file s = Ok s' ->
    dropped_records (st_stats s') =
    dropped_records (st_stats s)
    + List.length (filter (counts_as_dropped json_loads) input_file).
Proof.
  induction input_file as [|line rest IH]; intros s s' H.
  - injection H as <-. cbn. lia.
  - cbn [streamline_loop] in H.
    destruct (step s line) as [s1 |] eqn:E1; [| discriminate H].
    cbn [bind] in H. rewrite (IH _ _ H), (step_dropped _ _ _ E1).
    cbn [filter]. destruct (counts_as_dropped json_loads line); cbn; lia.
Qed.


(** ** The registry is never read (C8) *)

Lemma assistant_loop_registry_blind (items : list json) :
  forall outputs tu1 tu2,
    emitted (assistant_loop py_str items outputs tu1)
    = emitted (assistant_loop py_str items outputs tu2).
Proof.
  induction items as [|item items IH]; intros outputs tu1 tu2; [reflexivity|].
  destruct item as [| b | z | f | str | l | item];
    try (cbn [assistant_loop]; apply IH).
  cbn [assistant_loop].
  destruct (py_eq_str (dict_get item "type" JNull) "text").
  - destruct (py_strip _); cbn [bind]; [| reflexivity].
    destruct (str_nonempty _); apply IH.
  - destruct (py_eq_str (dict_get item "type" JNull) "tool_use"); [| apply IH].
    destruct (simplify_tool_use py_str item); cbn [bind]; [| reflexivity].
    unfold registry_set. destruct (py_hashable _); cbn [bind]; [apply IH | reflexivity].
Qed.

Lemma user_results_loop_registry_blind (items : list json) :
  forall outputs tu1 tu2,
    user_results_loop items outputs tu1 = user_results_loop items outputs tu2.
Proof.
  induction items as [|item items IH]; intros outputs tu1 tu2; [reflexivity|].
  destruct item; cbn [user_results_loop]; try apply IH.
  destruct (py_eq_str _ "tool_result"); [| apply IH].
  change (process_tool_result fields tu2) with (process_tool_result fields tu1).
  destruct (process_tool_result fields tu1); cbn [bind]; [apply IH | reflexivity].
Qed.

Lemma process_assistant_registry_blind (content : json) (tu1 tu2 : registry) :
  emitted (process_assistant_message py_str content tu1)
  = emitted (process_assistant_message py_str content tu2).
Proof.
  unfold process_assistant_message.
  destruct (py_iter content); cbn [bind]; [| reflexivity].
  apply assistant_loop_registry_blind.
Qed.

Lemma process_user_registry_blind (content : json) (tu1 tu2 : registry) :
  process_user_message content tu1 = process_user_message content tu2.
Proof.
  unfold process_user_message.
  destruct (extract_user_text content); cbn [bind]; [| reflexivity].
  destruct (py_iter content); cbn [bind]; [| reflexivity].
  apply user_results_loop_registry_blind.
Qed.

Lemma step_registry_blind (st : stats) (output_file : list string)
  (tu1 tu2 : registry) (line : string) :
  observable (step (mkState st tu1 output_file) line)
  = observable (step (mkState st tu2 output_file) line).
Proof.
  unfold streamline_step. cbn [st_stats st_tool_uses st_output_file].
  destruct (json_loads line) as [record |]; [| reflexivity].
  destruct (py_get record "type" JNull) as [record_type |]; cbn [bind]; [| reflexivity].
  destruct (_ || _); [reflexivity|].
  destruct (py_eq_str record_type "assistant").
  - destruct (py_get record "message" (JObj [])) as [message |]; cbn [bind]; [| reflexivity].
    destruct (py_get message "content" (JArr [])) as [content |]; cbn [bind]; [| reflexivity].
    pose proof (process_assistant_registry_blind content tu1 tu2) as H.
    destruct (process_assistant_message py_str content tu1) as [[o1 r1] |];
      destruct (process_assistant_message py_str content tu2) as [[o2 r2] |];
      cbn in H; try discriminate H.
    + injection H as ->. cbn [bind fst snd]. now rewrite !write_outputs_spec.
    + injection H as ->. reflexivity.
  - destruct (py_eq_str record_type "user"); [| reflexivity].
    destruct (py_get record "message" (JObj [])) as [message |]; cbn [bind]; [| reflexivity].
    destruct (py_get message "content" (JArr [])) as [content |]; cbn [bind]; [| reflexivity].
    rewrite (process_user_registry_blind content tu1 tu2).
    destruct (process_user_message content tu2); cbn [bind]; [| reflexivity].
    now rewrite !write_outputs_spec.
Qed.

Lemma loop_registry_blind (input_file : list string) :
  forall st output_file tu1 tu2,
    observable (loop input_file (mkState st tu1 output_file))
    = observable (loop input_file (mkState st tu2 output_file)).
Proof.
  induction input_file as [|line rest IH]; intros st output_file tu1 tu2;
    [reflexivity|].
  cbn [streamline_loop].
  pose proof (step_registry_blind st output_file tu1 tu2 line) as H.
  destruct (step (mkState st tu1 output_file) line) as [[st1 r1 f1] |];
    destruct (step (mkState st tu2 output_file) line) as [[st2 r2 f2] |];
    cbn in H; try discriminate H.
  - injection H as -> ->. cbn [bind]. apply IH.
  - exact H.
Qed.

(** C8. Nothing the engine emits or counts depends on the registry: from two
    states that differ in the registry only, the processors return the same
    records (or raise the same exception), one turn of the loop gives the
    same counters and the same file, and so does the rest of the pass. *)
Theorem registry_noninterference (tu1 tu2 : registry) :
  (forall content,
      emitted (process_assistant_message py_str content tu1)
      = emitted (process_assistant_message py_str content tu2))
  /\ (forall content,
      process_user_message content tu1 = process_user_message content tu2)
  /\ (forall tool_result,
      process_tool_result tool_result tu1 = process_tool_result tool_result tu2)
  /\ (forall st output_file line,
      observable (step (mkState st tu1 output_file) line)
      = observable (step (mkState st tu2 output_file) line))
  /\ (forall st output_file input_file,
      observable (loop input_file (mkState st tu1 output_file))
      = observable (loop input_file (mkState st tu2 output_file))).
Proof.
  repeat split; intros.
  - apply process_assistant_registry_blind.
  - apply process_user_registry_blind.
  - apply step_registry_blind.
  - apply loop_registry_blind.
Qed.

(** ** Content that is a plain string (C9) *)

Lemma text_parts_chars (text : string) : text_parts (str_chars text) = str_chars text.
Proof. induction text as [|c text IH]; cbn; [reflexivity | now rewrite IH]. Qed.

Lemma py_join_chars (text : string) : py_join (str_chars text) = Ok text.
Proof. induction text as [|c text IH]; cbn; [reflexivity | now rewrite IH]. Qed.

Lemma user_results_loop_chars (text : string) (outputs : list dict) (tu : registry) :
  user_results_loop (str_chars text) outputs tu = Ok outputs.
Proof. induction text as [|c text IH]; cbn; [reflexivity | exact IH]. Qed.

Lemma assistant_loop_chars (text : string) (outputs : list dict) (tu : registry) :
  assistant_loop py_str (str_chars text) outputs tu = Ok (outputs, tu).
Proof. induction text as [|c text IH]; cbn; [reflexivity | exact IH]. Qed.

Lemma process_user_message_string (text : string) (tu : registry) :
  process_user_message (JStr text) tu = Ok (user_records (str_strip text)).
Proof.
  unfold process_user_message, extract_user_text, user_records.
  cbn [py_iter bind]. rewrite text_parts_chars, py_join_chars. cbn [bind].
  rewrite user_results_loop_chars. now destruct (str_nonempty _).
Qed.

Lemma process_assistant_message_string (text : string) (tu : registry) :
  process_assistant_message py_str (JStr text) tu = Ok ([], tu).
Proof. unfold process_assistant_message. cbn [py_iter bind]. apply assistant_loop_chars. Qed.

(** C9. A record whose message content is a plain string is iterated
    character by character.  For a user record the collapser joins the
    characters again: the engine writes the one [user] record of the string
    without its surrounding whitespace (nothing when that is empty) and no
    [result] record.  For an assistant record it writes nothing.  In both
    cases nothing is counted as dropped. *)
Theorem string_content (s : state) (line : string) (record message : dict)
  (text stripped : string) :
  json_loads line = Some (JObj record) ->
  dict_get record "message" (JObj []) = JObj message ->
  dict_get message "content" (JArr []) = JStr text ->
  is_strip_of text stripped ->
  (dict_get record "type" JNull = JStr "user" ->
     exists s',
       step s line = Ok s'
       /\ st_output_file s' =
          st_output_file s
          ++ map (output_line_of json_dumps) (user_record_for stripped)
       /\ output_lines (st_stats s') =
          output_lines (st_stats s) + List.length (user_record_for stripped)
       /\ dropped_records (st_stats s') = dropped_records (st_stats s))
  /\ (dict_get record "type" JNull = JStr "assistant" ->
     exists s',
       step s line = Ok s'
       /\ st_output_file s' = st_output_file s
       /\ output_lines (st_stats s') = output_lines (st_stats s)
       /\ output_bytes (st_stats s') = output_bytes (st_stats s)
       /\ dropped_records (st_stats s') = dropped_records (st_stats s)).
Proof.
  intros Hparse Hmsg Hcontent Hstrip.
  rewrite (is_strip_of_unique _ _ Hstrip), <- user_records_for.
  split; intros Htype;
    unfold streamline_step; rewrite Hparse; cbn [py_get bind];
    rewrite Htype; cbn [py_eq_str String.eqb Ascii.eqb Bool.eqb orb];
    rewrite Hmsg; cbn [py_get bind]; rewrite Hcontent.
  - rewrite process_user_message_string. cbn [bind].
    rewrite write_outputs_spec. eexists. split; [reflexivity|].
    cbn [st_output_file st_stats output_lines dropped_records count_line].
    repeat split.
  - rewrite process_assistant_message_string. cbn [bind fst snd].
    rewrite write_outputs_spec. eexists. split; [reflexivity|].
    cbn [st_output_file st_stats output_lines output_bytes dropped_records
         count_line map List.length list_sum fold_right].
    rewrite app_nil_r. repeat split; lia.
Qed.

(** ** The reduction ratio of the stats report (C10) *)

Lemma step_counters (s s' : state) (line : string) :
  step s line = Ok s' -> counters_match_file s -> counters_match_file s'.
Proof.
  assert (Hkeep : forall st tu,
             output_lines st = output_lines (st_stats s) ->
             output_bytes st = output_bytes (st_stats s) ->
             counters_match_file s ->
             counters_match_file (mkState st tu (st_output_file s))).
  { intros st tu Hl Hb (H1 & H2 & H3).
    repeat split; cbn [st_stats st_output_file]; [now rewrite Hl | now rewrite Hb | exact H3]. }
  assert (Hwrite : forall outputs tu,
             counters_match_file s ->
             counters_match_file
               (let (st', file') :=
                  write_outputs json_dumps outputs (count_line (st_stats s) line)
                    (st_output_file s) in
                mkState st' tu file')).
  { intros outputs tu (H1 & H2 & H3). rewrite write_outputs_spec.
    repeat split; cbn [st_stats st_output_file output_lines output_bytes count_line].
    - rewrite length_app, length_map. lia.
    - rewrite map_app, list_sum_app. lia.
    - apply Forall_app. split; [assumption|].
      apply Forall_forall. intros l Hin. apply in_map_iff in Hin.
      destruct Hin as (o & <- & _). unfold output_line_of.
      rewrite str_length_app. cbn. lia. }
  unfold streamline_step. intros H Hs.
  destruct (json_loads line) as [record |].
  - bind_inv H; try (injection H as <-; now apply Hkeep);
      match type of H with
      | (let (_, _) := write_outputs _ ?outs _ _ in Ok (mkState _ ?tu _)) = _ =>
          specialize (Hwrite outs tu Hs);
          destruct (write_outputs _ _ _ _); now injection H as <-
      end.
  - injection H as <-. now apply Hkeep.
Qed.

Lemma loop_counters (input_file : list string) :
  forall s s',
    loop input_file s = Ok s' -> counters_match_file s -> counters_match_file s'.
Proof.
  induction input_file as [|line rest IH]; intros s s' H Hs.
  - now injection H as <-.
  - cbn [streamline_loop] in H.
    destruct (step s line) as [s1 |] eqn:E1; [| discriminate H].
    eapply IH; [exact H |]. eapply step_counters; eassumption.
Qed.

(** C10. The stats report never divides by zero.  After a pass the output
    byte count is zero exactly when nothing was written; the ratio reported
    is then 0, and otherwise the input byte count over the output byte
    count. *)
Theorem reduction_never_divides_by_zero (input_file : list string) (st : stats)
  (output_file : list string) :
  streamline py_str json_loads json_dumps input_file = Ok (st, output_file) ->
  (output_bytes st = 0 <-> output_file = [])
  /\ (exists q, reduction st = Ok q)
  /\ (output_bytes st = 0 -> reduction st = Ok 0%Q)
  /\ (output_bytes st <> 0 ->
      reduction st
      = Ok (Z.of_nat (input_bytes st) # Pos.of_nat (output_bytes st))%Q).
Proof.
  unfold streamline. intros H.
  destruct (loop input_file initial_state) as [s |] eqn:E; [| discriminate H].
  injection H as <- <-.
  assert (Hinit : counters_match_file initial_state)
    by (repeat split; constructor).
  destruct (loop_counters _ _ _ E Hinit) as (Hl & Hb & Hpos).
  unfold reduction, py_truediv, py_truthy.
  split; [| repeat split].
  - rewrite Hb. split.
    + destruct (st_output_file s) as [|l file]; [reflexivity|].
      inversion Hpos; subst. cbn. lia.
    + now intros ->.
  - destruct (output_bytes (st_stats s)); cbn; eexists; reflexivity.
  - now intros ->.
  - intros Hne. destruct (output_bytes (st_stats s)) as [|n] eqn:En;
      [contradiction|].
    replace (Z.of_nat (S n) =? 0)%Z with false; [reflexivity|].
    symmetry. apply Z.eqb_neq. lia.
Qed.

End Pass.

(** ** Truncation bounds (C7) *)

Lemma str_within_take (n : nat) (s : string) : str_within n (JStr (str_take n s)) = true.
Proof. cbn [str_within]. apply Nat.leb_le, str_take_le. Qed.

Lemma py_slice_within (n : nat) (v r : json) :
  py_slice n v = Ok r -> py_len_le n r = true.
Proof.
  destruct v; try discriminate; intros H; injection H as <-;
    unfold py_len_le; cbn [py_len]; apply Nat.leb_le.
  - apply str_take_le.
  - apply firstn_le_length.
Qed.

Lemma mapM_length {A B : Type} (f : A -> outcome B) (l : list A) (r : list B) :
  mapM f l = Ok r -> List.length r = List.length l.
Proof.
  revert r. induction l as [|a l IH]; intros r H.
  - now injection H as <-.
  - cbn [mapM] in H. ok_inv H. cbn. f_equal. now apply IH.
Qed.

Lemma mapM_forallb {A B : Type} (f : A -> outcome B) (p : B -> bool) (l : list A) :
  (forall a b, f a = Ok b -> p b = true) ->
  forall r, mapM f l = Ok r -> forallb p r = true.
Proof.
  intros Hf. induction l as [|a l IH]; intros r H.
  - now injection H as <-.
  - cbn [mapM] in H. ok_inv H. cbn [forallb].
    rewrite (Hf _ _ E), (IH _ eq_refl). reflexivity.
Qed.

Lemma str_chars_length (s : string) : List.length (str_chars s) = String.length s.
Proof. induction s as [|c s IH]; cbn; [reflexivity | now rewrite IH]. Qed.

Lemma py_iter_slice_length (n : nat) (v first : json) (ts : list json) :
  py_slice n v = Ok first -> py_iter first = Ok ts -> List.length ts <= n.
Proof.
  destruct v; try discriminate; intros H; injection H as <-;
    cbn [py_iter]; intros H; injection H as <-.
  - rewrite str_chars_length. apply str_take_le.
  - apply firstn_le_length.
Qed.

Lemma dict_set_length (d : dict) (k : string) (v : json) :
  List.length (dict_set d k v) <= S (List.length d).
Proof.
  induction d as [|[k' v'] d IH]; cbn; [lia|].
  destruct (k' =? k)%string; cbn; lia.
Qed.

Lemma dict_set_forallb (p : string * json -> bool) (d : dict) (k : string) (v : json) :
  forallb p d = true -> (forall k', p (k', v) = true) ->
  forallb p (dict_set d k v) = true.
Proof.
  intros Hd Hv. induction d as [|[k' v'] d IH]; cbn.
  - now rewrite Hv.
  - cbn in Hd. apply andb_true_iff in Hd. destruct Hd as [H1 H2].
    destruct (k' =? k)%string; cbn.
    + now rewrite Hv, H2.
    + now rewrite H1, IH.
Qed.

Section Bounds.

Variable py_str : json -> string.

Opaque str_take.

Lemma mcp_params_within (items : list (string * json)) :
  List.length items <= 3 ->
  params_within (JObj (mcp_params py_str items)) = true.
Proof.
  intros Hlen. unfold params_within, mcp_params.
  set (F := fun (acc : dict) (kv : string * json) =>
              dict_set acc (fst kv) (JStr (str_take 100 (py_str (snd kv))))).
  set (P := fun kv : string * json => str_within 100 (snd kv)).
  assert (H : forall acc,
             forallb P acc = true ->
             List.length (fold_left F items acc) <= List.length acc + List.length items
             /\ forallb P (fold_left F items acc) = true).
  { clear Hlen. induction items as [|kv items IH]; intros acc Hacc;
      cbn [fold_left List.length].
    - split; [lia | assumption].
    - destruct (IH (F acc kv)) as [H1 H2].
      + apply dict_set_forallb; [assumption|]. intros k'. apply str_within_take.
      + split; [| exact H2].
        pose proof (dict_set_length acc (fst kv)
                      (JStr (str_take 100 (py_str (snd kv))))) as H3.
        fold (F acc kv) in H3. lia. }
  destruct (H [] eq_refl) as [H1 H2]. cbn [List.length] in H1.
  rewrite H2, andb_true_r. apply Nat.leb_le. lia.
Qed.

(** What the fallback returns: the record unchanged, or with one probe key
    set to a string of at most 200 characters. *)
Lemma fallback_probe_inv (keys : list string) (inp : json) (base r : dict) :
  fallback_probe py_str keys inp base = Ok r ->
  r = base
  \/ exists key s,
       In key keys /\ String.length s <= 200 /\ r = dict_set base key (JStr s).
Proof.
  induction keys as [|key keys IH]; cbn [fallback_probe]; intros H.
  - injection H as <-. now left.
  - bind_inv H.
    + injection H as <-. right. eexists _, _.
      split; [now left|]. split; [apply str_take_le | reflexivity].
    + destruct (IH H) as [-> | (k & s & Hin & Hlen & ->)]; [now left|].
      right. exists k, s. repeat split; try assumption. now right.
Qed.

Lemma simplify_tool_use_name (tool_use r : dict) :
  simplify_tool_use py_str tool_use = Ok r ->
  exists name, dict_get tool_use "name" (JStr "unknown") = JStr name.
Proof.
  unfold simplify_tool_use.
  destruct (dict_get tool_use "name" (JStr "unknown")); try discriminate.
  intros _. now eexists.
Qed.

Ltac lookup_fields :=
  cbn [tool_use_record result_record dict_update fold_left fst snd dict_set
       dict_get dict_lookup app String.eqb Ascii.eqb Bool.eqb py_eq_str
       field_ok forallb andb].

(** The output record of a simplified tool use: its [type] goes in front,
    and its fields are within the bounds of its rule. *)
Lemma simplify_tool_use_record (tool_use r : dict) :
  simplify_tool_use py_str tool_use = Ok r ->
  dict_update [("type", JStr "tool_use")] r = tool_use_record r
  /\ record_within_bounds (tool_use_record r) = true.
Proof.
  intros H. destruct (simplify_tool_use_name _ _ H) as (name & Hname).
  rewrite (simplify_tool_use_dispatch py_str tool_use name Hname) in H.
  cbv zeta in H.
  unfold record_within_bounds, tool_use_within_bounds.
  destruct (rule_of name) eqn:Hrule.
  - ok_inv H. split; [reflexivity|]. lookup_fields. now rewrite Hrule.
  - (* Bash *)
    destruct (py_get _ "command" _) as [cmd |]; [| discriminate H].
    cbn [bind] in H.
    destruct (py_len cmd) as [n |] eqn:En; [| discriminate H].
    cbn [bind] in H.
    assert (Hc : forall c,
               (if 200 <? n
                then (head <- py_slice 200 cmd ;; py_add_str head "...")
                else Ok cmd) = Ok c -> py_len_le 203 c = true).
    { intros c Hc. destruct (200 <? n) eqn:Hn.
      - destruct cmd; try discriminate Hc.
        cbn [py_slice py_add_str bind] in Hc.
        injection Hc as <-. unfold py_len_le. cbn [py_len].
          apply Nat.leb_le. rewrite str_length_app.
          pose proof (str_take_le 200 s) as Hle.
        change (String.length "...") with 3. lia.
      - injection Hc as <-. unfold py_len_le. rewrite En.
        apply Nat.ltb_ge in Hn. apply Nat.leb_le. lia. }
    destruct (if 200 <? n then _ else _) as [c |]; [| discriminate H].
    injection H as <-. split; [reflexivity|]. lookup_fields.
    rewrite Hrule. lookup_fields. now apply Hc.
  - (* Grep *)
    bind_inv H. injection H as <-.
    split; [destruct (py_truthy _); reflexivity|]. lookup_fields.
    rewrite Hrule. lookup_fields. eapply py_slice_within; eassumption.
  - ok_inv H. split; [reflexivity|]. lookup_fields. now rewrite Hrule.
  - ok_inv H. split; [reflexivity|]. lookup_fields. now rewrite Hrule.
  - (* TodoWrite *)
    ok_inv H. split; [reflexivity|]. lookup_fields.
    rewrite Hrule. lookup_fields. unfold todos_within.
    apply andb_true_iff. split.
    + apply Nat.leb_le. erewrite mapM_length by eassumption.
      eapply py_iter_slice_length; eassumption.
    + eapply mapM_forallb; [| eassumption].
      intros t b Hb. cbn beta in Hb. bind_inv Hb.
      eapply py_slice_within; eassumption.
  - (* mcp *)
    ok_inv H. split; [reflexivity|]. lookup_fields.
    rewrite Hrule. lookup_fields. apply mcp_params_within.
    match goal with
    | E : py_items _ = Ok ?items |- _ =>
        change (List.length (firstn 3 items) <= 3); apply firstn_le_length
    end.
  - (* fallback *)
    apply fallback_probe_inv in H.
    destruct H as [-> | (key & s & Hin & Hlen & ->)].
    + split; [reflexivity|]. lookup_fields. now rewrite Hrule.
    + apply Nat.leb_le in Hlen.
      cbn [probe_keys In] in Hin.
      repeat (destruct Hin as [<- | Hin]; [
        split; [reflexivity|]; lookup_fields; rewrite Hrule; lookup_fields;
        cbn [str_within]; rewrite ?Hlen; reflexivity |]).
      contradiction.
Qed.

Lemma process_tool_result_within (tool_result : dict) (tool_uses : registry) (r : dict) :
  process_tool_result tool_result tool_uses = Ok r ->
  record_within_bounds (result_record r) = true.
Proof.
  unfold process_tool_result, record_within_bounds. intros H.
  destruct (py_truthy _).
  - destruct (dict_get tool_result "content" (JStr ""))
      as [| b | z | f | s | [| first rest] | d];
      try (injection H as <-; reflexivity).
    + injection H as <-. lookup_fields.
      apply (py_slice_within 200 (JStr s)). reflexivity.
    + destruct first; try (injection H as <-; reflexivity).
      * injection H as <-. lookup_fields.
        apply (py_slice_within 200 (JStr s)). reflexivity.
      * ok_inv H. lookup_fields. eapply py_slice_within; eassumption.
  - injection H as <-. reflexivity.
Qed.

Lemma assistant_loop_within (items : list json) :
  forall outputs tool_uses outs tool_uses',
    forallb record_within_bounds outputs = true ->
    assistant_loop py_str items outputs tool_uses = Ok (outs, tool_uses') ->
    forallb record_within_bounds outs = true.
Proof.
  induction items as [|item items IH]; intros outputs tu outs tu' Hacc H.
  - now injection H as <- _.
  - destruct item; cbn [assistant_loop] in H; try (eapply IH; eassumption).
    destruct (py_eq_str (dict_get fields "type" JNull) "text").
    + bind_inv H; (eapply IH; [| exact H]); [| assumption].
      rewrite forallb_app, Hacc. reflexivity.
    + destruct (py_eq_str (dict_get fields "type" JNull) "tool_use");
        [| eapply IH; eassumption].
      bind_inv H. eapply IH; [| exact H].
      match goal with
      | E : simplify_tool_use _ _ = Ok _ |- _ =>
          destruct (simplify_tool_use_record _ _ E) as [Hrec Hok]
      end.
      rewrite forallb_app, Hacc, Hrec. cbn [forallb]. now rewrite Hok.
Qed.

Lemma process_user_message_within (content : json) (tool_uses : registry)
  (outs : list dict) :
  process_user_message content tool_uses = Ok outs ->
  forallb record_within_bounds outs = true.
Proof.
  intros H. apply process_user_message_inv in H.
  destruct H as (items & texts & rs & _ & _ & Hrs & ->).
  rewrite forallb_app. apply andb_true_iff. split.
  - unfold user_records. now destruct (str_nonempty _).
  - assert (Hall : forallb (fun r => record_within_bounds (result_record r)) rs = true).
    { eapply mapM_forallb; [| exact Hrs].
      intros b r Hr. eapply process_tool_result_within; exact Hr. }
    clear Hrs. induction rs as [|r rs IH]; [reflexivity|].
    cbn [map forallb] in *. apply andb_true_iff in Hall.
    destruct Hall as [H1 H2]. now rewrite H1, IH.
Qed.

Variable json_loads : string -> option json.
Variable json_dumps : dict -> string.

(** One turn of the loop appends the lines of records within the bounds. *)
Lemma step_written (s s' : state) (line : string) :
  streamline_step py_str json_loads json_dumps s line = Ok s' ->
  exists outs,
    st_output_file s' = st_output_file s ++ map (output_line_of json_dumps) outs
    /\ forallb record_within_bounds outs = true.
Proof.
  unfold streamline_step. intros H.
  assert (Hnone : forall st tu,
             exists outs,
               st_output_file (mkState st tu (st_output_file s))
               = st_output_file s ++ map (output_line_of json_dumps) outs
               /\ forallb record_within_bounds outs = true).
  { intros st tu. exists []. cbn. now rewrite app_nil_r. }
  destruct (json_loads line) as [record |];
    [| injection H as <-; apply Hnone].
  bind_inv H; try (injection H as <-; apply Hnone);
    rewrite write_outputs_spec in H; injection H as <-;
    cbn [st_output_file]; eexists; (split; [reflexivity|]).
  - match goal with
    | E : process_assistant_message _ _ _ = Ok ?r |- _ =>
        destruct r as [outs tu']; cbn [fst];
        unfold process_assistant_message in E;
        destruct (py_iter _) as [items |]; [| discriminate E];
        cbn [bind] in E; eapply assistant_loop_within; [| exact E]; reflexivity
    end.
  - eapply process_user_message_within; eassumption.
Qed.

Lemma loop_written (input_file : list string) :
  forall s s',
    streamline_loop py_str json_loads json_dumps input_file s = Ok s' ->
    exists outs,
      st_output_file s' = st_output_file s ++ map (output_line_of json_dumps) outs
      /\ forallb record_within_bounds outs = true.
Proof.
  induction input_file as [|line rest IH]; intros s s' H.
  - injection H as <-. exists []. cbn. now rewrite app_nil_r.
  - cbn [streamline_loop] in H.
    destruct (streamline_step py_str json_loads json_dumps s line)
      as [s1 |] eqn:E1; [| discriminate H].
    cbn [bind] in H.
    destruct (step_written _ _ _ E1) as (outs1 & Hf1 & Hb1).
    destruct (IH _ _ H) as (outs2 & Hf2 & Hb2).
    exists (outs1 ++ outs2). split.
    + now rewrite Hf2, Hf1, map_app, app_assoc.
    + now rewrite forallb_app, Hb1, Hb2.
Qed.

(** C7, as the code has it.  In every record the processors return, and so
    in every record a pass writes, a Bash [cmd] has length at most 203 (200
    characters and the three of the marker), a Grep [pattern] at most 100, an
    [error] at most 200; a TodoWrite record has at most 5 item texts of
    length at most 50; an mcp__ record has at most 3 params, each a string
    of at most 100 characters; the fallback adds at most one field, a string
    of at most 200 characters under one of the probe keys. *)
Theorem truncation_bounds :
  (forall content tool_uses outs tool_uses',
      process_assistant_message py_str content tool_uses = Ok (outs, tool_uses') ->
      forallb record_within_bounds outs = true)
  /\ (forall content tool_uses outs,
      process_user_message content tool_uses = Ok outs ->
      forallb record_within_bounds outs = true)
  /\ (forall tool_use name r,
      dict_get tool_use "name" (JStr "unknown") = JStr name ->
      rule_of name = RuleFallback ->
      simplify_tool_use py_str tool_use = Ok r ->
      let base := [("tool", JStr name); ("id", dict_get tool_use "id" (JStr ""))] in
      r = base
      \/ exists key s,
           In key probe_keys /\ String.length s <= 200
           /\ r = dict_set base key (JStr s))
  /\ (forall input_file st output_file,
      streamline py_str json_loads json_dumps input_file = Ok (st, output_file) ->
      exists records,
        output_file = map (output_line_of json_dumps) records
        /\ forallb record_within_bounds records = true).
Proof.
  split; [| split; [| split]].
  - intros content tu outs tu' H. unfold process_assistant_message in H.
    destruct (py_iter content) as [items |]; [| discriminate H].
    cbn [bind] in H. eapply assistant_loop_within; [| exact H]. reflexivity.
  - intros content tu outs H. eapply process_user_message_within; exact H.
  - intros tool_use name r Hname Hrule H base.
    rewrite (simplify_tool_use_dispatch py_str tool_use name Hname) in H.
    cbv zeta in H. rewrite Hrule in H.
    eapply fallback_probe_inv; exact H.
  - intros input_file st output_file H. unfold streamline in H.
    destruct (streamline_loop _ _ _ input_file initial_state) as [s |] eqn:E;
      [| discriminate H].
    injection H as _ <-.
    destruct (loop_written _ _ _ E) as (outs & Hf & Hb).
    exists outs. split; [exact Hf | exact Hb].
Qed.

Transparent str_take.

End Bounds.

(* ================================================================== *)
(** * The sample transcript, run *)

(** The pass over the sample transcript: seven lines read, two records
    dropped, seven lines written. *)
Example sample_run_stats :
  fst Sample.run = mkStats 7 863 7 512 2.
Proof. vm_compute. reflexivity. Qed.

(** ** Where the code departs from C1 and C7 *)

(** C1 fails on Grep's [path]: with no path in the payload the record has no
    [path] field at all, rather than an empty one. *)
Lemma grep_path_omitted :
  dict_lookup [("pattern", JStr "TODO")] "path" = None
  /\ simplify_tool_use Sample.str Sample.grep_block
     = Ok [("tool", JStr "Grep"); ("id", JStr "g1"); ("pattern", JStr "TODO")]
  /\ ~ (exists r,
          simplify_tool_use Sample.str Sample.grep_block = Ok r
          /\ dict_lookup r "path" = Some (JStr "")).
Proof.
  split; [reflexivity|]. split; [reflexivity|].
  intros (r & Hr & Hpath).
  change (simplify_tool_use Sample.str Sample.grep_block)
    with (Ok [("tool", JStr "Grep"); ("id", JStr "g1"); ("pattern", JStr "TODO")])
    in Hr.
  injection Hr as <-. discriminate Hpath.
Qed.

(** The same for the other rules without a string default: an absent
    [todos] gives the empty list, and the fallback gives no field. *)
Example todos_and_fallback_defaults :
  simplify_tool_use Sample.str Sample.todo_block
  = Ok [("tool", JStr "TodoWrite"); ("id", JStr "w1"); ("todos", JArr [])]
  /\ simplify_tool_use Sample.str Sample.fetch_block
     = Ok [("tool", JStr "WebFetch"); ("id", JStr "f1")].
Proof. split; reflexivity. Qed.

(** C7 fails on Bash's [cmd]: a command of 250 characters gives a [cmd] of
    203 characters, above the bound of 200. *)
Lemma bash_cmd_exceeds_200 :
  simplify_tool_use Sample.str Sample.bash_block
  = Ok [("tool", JStr "Bash"); ("id", JStr "t1");
        ("cmd", JStr (Sample.repeat_char "a" 200 ++ "...")%string)]
  /\ String.length (Sample.repeat_char "a" 200 ++ "...")%string = 203
  /\ py_len_le 200 (JStr (Sample.repeat_char "a" 200 ++ "...")%string) = false.
Proof. repeat split; vm_compute; reflexivity. Qed.

(** A Glob pattern is copied as it is, whatever its length. *)
Example glob_pattern_untruncated :
  simplify_tool_use Sample.str
    [("id", JStr "b1"); ("name", JStr "Glob");
     ("input", JObj [("pattern", JStr (Sample.repeat_char "*" 150))])]
  = Ok [("tool", JStr "Glob"); ("id", JStr "b1");
        ("pattern", JStr (Sample.repeat_char "*" 150))].
Proof. vm_compute. reflexivity. Qed.

(** ** The theorems at the sample inputs *)

Lemma simplify_fields_present_witness :
  exists r,
    simplify_tool_use Sample.str Sample.task_block = Ok r
    /\ dict_lookup r "agent" = Some (JStr "").
Proof.
  apply (proj1 (proj2 (simplify_fields_present Sample.str Sample.task_block
                         [("description", JStr "survey")] "Task"
                         eq_refl eq_refl)) "agent" "subagent_type").
  - right. left. reflexivity.
  - reflexivity.
Defined.


Lemma user_text_precedes_results_witness :
  exists items texts rs text,
    py_iter Cases.spaced_content = Ok items
    /\ map carried_text (filter carries_text items) = map JStr texts
    /\ is_strip_of (str_concat texts) text
    /\ mapM (fun b => process_tool_result b []) (tool_result_blocks items) = Ok rs
    /\ [[("type", JStr "user"); ("text", JStr "o k")];
        [("type", JStr "result"); ("id", JStr "t1"); ("ok", JBool false);
         ("error", JStr "boom")];
        [("type", JStr "result"); ("id", JStr "g1"); ("ok", JBool true)]]
       = user_record_for text ++ map result_record rs.
Proof.
  apply (proj1 (user_text_precedes_results Cases.spaced_content [] _)).
  reflexivity.
Defined.

Lemma invalid_json_line_skipped_witness :
  exists s',
    streamline_step Sample.str Sample.loads Sample.dumps initial_state Sample.garbage
    = Ok s'
    /\ st_output_file s' = st_output_file initial_state
    /\ st_tool_uses s' = st_tool_uses initial_state
    /\ dropped_records (st_stats s') = dropped_records (st_stats initial_state)
    /\ output_lines (st_stats s') = output_lines (st_stats initial_state)
    /\ output_bytes (st_stats s') = output_bytes (st_stats initial_state)
    /\ input_lines (st_stats s') = input_lines (st_stats initial_state) + 1
    /\ input_bytes (st_stats s')
       = input_bytes (st_stats initial_state) + String.length Sample.garbage
    /\ streamline_loop Sample.str Sample.loads Sample.dumps
         (Sample.garbage :: map Sample.line_of Sample.records) initial_state
       = streamline_loop Sample.str Sample.loads Sample.dumps
           (map Sample.line_of Sample.records) s'.
Proof.
  apply (invalid_json_line_skipped Sample.str Sample.loads Sample.dumps
           initial_state Sample.garbage (map Sample.line_of Sample.records)).
  vm_compute. reflexivity.
Defined.



Lemma truncation_bounds_witness :
  forallb record_within_bounds
    [[("type", JStr "tool_use"); ("tool", JStr "Bash"); ("id", JStr "t1");
      ("cmd", JStr (Sample.repeat_char "a" 200 ++ "...")%string)];
     [("type", JStr "tool_use"); ("tool", JStr "Grep"); ("id", JStr "g1");
      ("pattern", JStr "TODO")]]
  = true.
Proof.
  apply (proj1 (truncation_bounds Sample.str Sample.loads Sample.dumps)
           (JArr [JObj Sample.bash_block; JObj Sample.grep_block]) []
           _ [(JStr "t1", [("tool", JStr "Bash"); ("id", JStr "t1");
                           ("cmd", JStr (Sample.repeat_char "a" 200 ++ "...")%string)]);
              (JStr "g1", [("tool", JStr "Grep"); ("id", JStr "g1");
                           ("pattern", JStr "TODO")])]).
  vm_compute. reflexivity.
Defined.

Lemma string_content_witness :
  exists s',
    streamline_step Sample.str Sample.loads Sample.dumps initial_state
      (Sample.line_of (Sample.record "user" (JStr "  fix the build  "))) = Ok s'
    /\ st_output_file s' =
       st_output_file initial_state
       ++ map (output_line_of Sample.dumps)
            [[("type", JStr "user"); ("text", JStr "fix the build")]]
    /\ output_lines (st_stats s') =
       output_lines (st_stats initial_state)
       + List.length [[("type", JStr "user"); ("text", JStr "fix the build")]]
    /\ dropped_records (st_stats s') = dropped_records (st_stats initial_state).
Proof.
  assert (Hparse :
            Sample.loads (Sample.line_of (Sample.record "user" (JStr "  fix the build  ")))
            = Some (JObj [("type", JStr "user");
                          ("message", JObj [("content", JStr "  fix the build  ")])]))
    by (vm_compute; reflexivity).
  assert (Hstrip : is_strip_of "  fix the build  " "fix the build").
  { exists "  ", "  ". repeat split; reflexivity. }
  apply (proj1 (string_content Sample.str Sample.loads Sample.dumps initial_state
                  _ _ [("content", JStr "  fix the build  ")] "  fix the build  "
                  "fix the build" Hparse eq_refl eq_refl Hstrip)).
  reflexivity.
Defined.

(** A user record whose content is whitespace only writes nothing. *)
Example blank_string_content :
  process_user_message (JStr "   ") [] = Ok []
  /\ is_strip_of "   " "".
Proof.
  split; [reflexivity|]. exists "   ", "". repeat split; reflexivity.
Qed.

Lemma reduction_never_divides_by_zero_witness :
  (output_bytes (fst Sample.run) = 0 <-> snd Sample.run = [])
  /\ (exists q, reduction (fst Sample.run) = Ok q)
  /\ (output_bytes (fst Sample.run) = 0 -> reduction (fst Sample.run) = Ok 0%Q)
  /\ (output_bytes (fst Sample.run) <> 0 ->
      reduction (fst Sample.run)
      = Ok (Z.of_nat (input_bytes (fst Sample.run))
            # Pos.of_nat (output_bytes (fst Sample.run)))%Q).
Proof.
  apply (reduction_never_divides_by_zero Sample.str Sample.loads Sample.dumps
           Sample.input_file).
  vm_compute. reflexivity.
Defined.

(* ================================================================== *)
(** * Further properties *)

(** ** The registry as a dict *)

Lemma dict_key_eqb_sym (a b : dict_key) : dict_key_eqb a b = dict_key_eqb b a.
Proof.
  destruct a, b; cbn [dict_key_eqb]; try reflexivity.
  - apply String.eqb_sym.
  - destruct (Qeq_bool q q0) eqn:E1, (Qeq_bool q0 q) eqn:E2; try reflexivity.
    + apply Qeq_bool_iff in E1. symmetry in E1. apply Qeq_bool_iff in E1. congruence.
    + apply Qeq_bool_iff in E2. symmetry in E2. apply Qeq_bool_iff in E2. congruence.
  - now destruct negative, negative0.
Qed.

Lemma dict_key_eqb_congr (a b c : dict_key) :
  dict_key_eqb a b = true -> dict_key_eqb a c = dict_key_eqb b c.
Proof.
  destruct a, b; cbn [dict_key_eqb]; try discriminate; intros H.
  - reflexivity.
  - apply String.eqb_eq in H. now subst.
  - destruct c; cbn [dict_key_eqb]; try reflexivity.
    apply Qeq_bool_iff in H.
    destruct (Qeq_bool q q1) eqn:E1, (Qeq_bool q0 q1) eqn:E2; try reflexivity.
    + apply Qeq_bool_iff in E1. rewrite H in E1. apply Qeq_bool_iff in E1. congruence.
    + apply Qeq_bool_iff in E2. rewrite <- H in E2. apply Qeq_bool_iff in E2. congruence.
  - apply Bool.eqb_prop in H. now subst.
  - reflexivity.
Qed.

Lemma py_key_eq_sym (a b : json) : py_key_eq a b = py_key_eq b a.
Proof.
  unfold py_key_eq. destruct (py_key a), (py_key b); try reflexivity.
  apply dict_key_eqb_sym.
Qed.

Lemma py_key_eq_congr (a b c : json) :
  py_key_eq a b = true -> py_key_eq a c = py_key_eq b c.
Proof.
  unfold py_key_eq. destruct (py_key a), (py_key b); try discriminate.
  intros H. destruct (py_key c); [| reflexivity].
  now apply dict_key_eqb_congr.
Qed.

(** Reading the registry after a write: the key written gives the value
    written, every other key gives what it gave before. *)
Lemma registry_get_insert (tool_uses : registry) (key key' : json) (value : dict) :
  registry_get (registry_insert tool_uses key value) key' =
  if py_key_eq key key' then Some value else registry_get tool_uses key'.
Proof.
  induction tool_uses as [|[k v] rest IH]; cbn [registry_insert registry_get].
  - reflexivity.
  - destruct (py_key_eq k key) eqn:Ek; cbn [registry_get].
    + rewrite (py_key_eq_congr _ _ key' Ek). now destruct (py_key_eq key key').
    + rewrite IH. destruct (py_key_eq k key') eqn:Ek'; [| reflexivity].
      destruct (py_key_eq key key') eqn:Ekey; [| reflexivity].
      rewrite (py_key_eq_congr _ _ key Ek'), py_key_eq_sym, Ekey in Ek.
      discriminate Ek.
Qed.

(** ** The assistant content processor *)

Section AssistantProcessor.

Variable py_str : json -> string.

Local Abbreviation aloop := (assistant_loop py_str).

(** The records already collected stay in front. *)
Lemma assistant_loop_acc (items : list json) :
  forall outputs tool_uses,
    aloop items outputs tool_uses =
    (r <- aloop items [] tool_uses ;; Ok (outputs ++ fst r, snd r)).
Proof.
  induction items as [|item items IH]; intros outputs tu.
  - cbn. now rewrite app_nil_r.
  - destruct item as [| b | z | f | str | l | item];
      try (cbn [assistant_loop]; apply IH).
    cbn [assistant_loop].
    destruct (py_eq_str (dict_get item "type" JNull) "text").
    + destruct (py_strip _) as [text |]; cbn [bind]; [| reflexivity].
      destruct (str_nonempty text); [| apply IH].
      rewrite (IH (outputs ++ _)), (IH ([] ++ _)).
      destruct (aloop items [] tu) as [[o t] |]; cbn [bind fst snd]; [| reflexivity].
      now rewrite <- app_assoc.
    + destruct (py_eq_str (dict_get item "type" JNull) "tool_use"); [| apply IH].
      destruct (simplify_tool_use py_str item) as [simplified |]; cbn [bind];
        [| reflexivity].
      destruct (registry_set tu _ simplified) as [tu1 |]; cbn [bind]; [| reflexivity].
      rewrite (IH (outputs ++ _)), (IH ([] ++ _)).
      destruct (aloop items [] tu1) as [[o t] |]; cbn [bind fst snd]; [| reflexivity].
      now rewrite <- app_assoc.
Qed.

Lemma assistant_loop_app (items1 items2 : list json) :
  forall outputs tool_uses,
    aloop (items1 ++ items2) outputs tool_uses =
    (r <- aloop items1 outputs tool_uses ;; aloop items2 (fst r) (snd r)).
Proof.
  induction items1 as [|item items1 IH]; intros outputs tu; [reflexivity|].
  destruct item as [| b | z | f | str | l | item];
    try (cbn [assistant_loop app]; apply IH).
  cbn [assistant_loop app].
  destruct (py_eq_str (dict_get item "type" JNull) "text").
  - destruct (py_strip _) as [text |]; cbn [bind]; [| reflexivity].
    destruct (str_nonempty text); apply IH.
  - destruct (py_eq_str (dict_get item "type" JNull) "tool_use"); [| apply IH].
    destruct (simplify_tool_use py_str item) as [simplified |]; cbn [bind];
      [| reflexivity].
    destruct (registry_set tu _ simplified) as [tu1 |]; cbn [bind]; [| reflexivity].
    apply IH.
Qed.

(** X1. Processing a content sequence is processing its first part and then
    the rest with the registry the first part left: the records of the two
    parts follow each other in block order, and an exception in the first
    part is the exception of the whole. *)
Theorem process_assistant_message_app (items1 items2 : list json)
  (tool_uses : registry) :
  process_assistant_message py_str (JArr (items1 ++ items2)) tool_uses =
  (r1 <- process_assistant_message py_str (JArr items1) tool_uses ;;
   r2 <- process_assistant_message py_str (JArr items2) (snd r1) ;;
   Ok (fst r1 ++ fst r2, snd r2)).
Proof.
  unfold process_assistant_message. cbn [py_iter bind].
  rewrite assistant_loop_app.
  destruct (aloop items1 [] tool_uses) as [[o1 t1] |]; cbn [bind fst snd];
    [| reflexivity].
  apply assistant_loop_acc.
Qed.

(** X2. Only dicts typed [text] or [tool_use] count: taking every other
    item (thinking blocks, bare strings, blocks of any other type) out of
    the content changes neither the records, nor the registry, nor the
    exception raised. *)
Theorem assistant_ignores_other_blocks (items : list json) (tool_uses : registry) :
  process_assistant_message py_str (JArr (filter is_assistant_block items)) tool_uses
  = process_assistant_message py_str (JArr items) tool_uses.
Proof.
  unfold process_assistant_message. cbn [py_iter bind].
  generalize (@nil dict) as outputs. revert tool_uses.
  induction items as [|item items IH]; intros tu outputs; [reflexivity|].
  destruct item as [| b | z | f | str | l | item];
    try (cbn [filter is_assistant_block assistant_loop]; apply IH).
  cbn [filter is_assistant_block].
  destruct (py_eq_str (dict_get item "type" JNull) "text") eqn:Etext.
  - cbn [orb assistant_loop]. rewrite Etext.
    destruct (py_strip _) as [text |]; cbn [bind]; [| reflexivity].
    destruct (str_nonempty text); apply IH.
  - destruct (py_eq_str (dict_get item "type" JNull) "tool_use") eqn:Euse;
      cbn [orb assistant_loop]; rewrite Etext, Euse; [| apply IH].
    destruct (simplify_tool_use py_str item) as [simplified |]; cbn [bind];
      [| reflexivity].
    destruct (registry_set tu _ simplified) as [tu1 |]; cbn [bind]; [| reflexivity].
    apply IH.
Qed.

Lemma assistant_loop_registry (items : list json) :
  forall outputs tool_uses outs tool_uses',
    aloop items outputs tool_uses = Ok (outs, tool_uses') ->
    forall key,
      registry_get tool_uses' key =
      match latest_tool_use py_str items key with
      | Some r => Some r
      | None => registry_get tool_uses key
      end.
Proof.
  induction items as [|item items IH]; intros outputs tu outs tu' H key.
  - now injection H as _ <-.
  - assert (Hskip : forall inner : option dict,
               aloop items outputs tu = Ok (outs, tu') ->
               inner = None ->
               registry_get tu' key =
               match
                 match latest_tool_use py_str items key with
                 | Some r => Some r
                 | None => inner
                 end
               with
               | Some r => Some r
               | None => registry_get tu key
               end).
    { intros inner H' ->. rewrite (IH _ _ _ _ H' key).
      now destruct (latest_tool_use py_str items key). }
    destruct item as [| b | z | f | str | l | item];
      cbn [assistant_loop latest_tool_use] in *;
      try (now apply Hskip).
    destruct (py_eq_str (dict_get item "type" JNull) "text") eqn:Etext.
    + assert (Euse : py_eq_str (dict_get item "type" JNull) "tool_use" = false).
      { destruct (dict_get item "type" JNull); try reflexivity.
        cbn [py_eq_str] in *. apply String.eqb_eq in Etext. now subst. }
      rewrite Euse. cbn [andb].
      destruct (py_strip _) as [text |]; cbn [bind] in H; [| discriminate H].
      destruct (str_nonempty text).
      * rewrite (IH _ _ _ _ H key).
        now destruct (latest_tool_use py_str items key).
      * now apply Hskip.
    + destruct (py_eq_str (dict_get item "type" JNull) "tool_use");
        cbn [andb]; [| now apply Hskip].
      destruct (simplify_tool_use py_str item) as [simplified |];
        cbn [bind] in H; [| discriminate H].
      unfold registry_set in H.
      destruct (py_hashable _); cbn [bind] in H; [| discriminate H].
      rewrite (IH _ _ _ _ H key), registry_get_insert.
      destruct (latest_tool_use py_str items key); [reflexivity|].
      now destruct (py_key_eq _ key).
Qed.

(** X3. After an assistant content sequence the registry binds the id of
    every tool_use block to the simplified record of the last block with
    that id, and binds every other key as it did before.  Ids are compared
    as dict keys, so blocks with the same id, or with no id at all, share
    one entry, which the last of them holds.  The key read is any hashable
    value. *)
Theorem registry_holds_latest_tool_use (content : json) (items : list json)
  (tool_uses tool_uses' : registry) (outs : list dict) (key : json) :
  py_iter content = Ok items ->
  process_assistant_message py_str content tool_uses = Ok (outs, tool_uses') ->
  py_hashable key = true ->
  registry_get tool_uses' key =
  match latest_tool_use py_str items key with
  | Some r => Some r
  | None => registry_get tool_uses key
  end.
Proof.
  unfold process_assistant_message. intros -> H _. cbn [bind] in H.
  exact (assistant_loop_registry _ _ _ _ _ H key).
Qed.

Lemma assistant_loop_succeeds (items : list json) :
  forall outputs tool_uses,
    (exists r, aloop items outputs tool_uses = Ok r)
    <-> forallb (assistant_block_ok py_str) items = true.
Proof.
  induction items as [|item items IH]; intros outputs tu.
  - cbn. split; [reflexivity | intros _; now eexists].
  - destruct item as [| b | z | f | str | l | item];
      try (cbn [assistant_loop forallb assistant_block_ok andb]; apply IH).
    cbn [assistant_loop forallb assistant_block_ok].
    destruct (py_eq_str (dict_get item "type" JNull) "text").
    + destruct (dict_get item "text" (JStr "")) as [| b | z | f | text | l | d];
        cbn [py_strip bind andb];
        try (split; [intros (r & Hr); discriminate Hr | discriminate]).
      destruct (str_nonempty _); apply IH.
    + destruct (py_eq_str (dict_get item "type" JNull) "tool_use");
        [| cbn [andb]; apply IH].
      destruct (simplify_tool_use py_str item) as [simplified |]; cbn [bind andb];
        [| split; [intros (r & Hr); discriminate Hr | discriminate]].
      unfold registry_set. destruct (py_hashable _); cbn [bind andb];
        [apply IH | split; [intros (r & Hr); discriminate Hr | discriminate]].
Qed.

(** X4. The assistant processor returns exactly when the content is iterable
    and every block it looks at goes through: each text block holds a string
    text, each tool_use block simplifies and has a hashable id.  A text that
    is not a string, or an id that is a list or an object, ends the pass. *)
Theorem assistant_succeeds_iff (content : json) (tool_uses : registry) :
  (exists r, process_assistant_message py_str content tool_uses = Ok r)
  <-> exists items,
        py_iter content = Ok items
        /\ forallb (assistant_block_ok py_str) items = true.
Proof.
  unfold process_assistant_message.
  destruct (py_iter content) as [items | e]; cbn [bind].
  - rewrite assistant_loop_succeeds. split.
    + intros H. now exists items.
    + intros (items' & Heq & H). now injection Heq as ->.
  - split; [intros (r & Hr); discriminate Hr | intros (items & Heq & _); discriminate Heq].
Qed.

End AssistantProcessor.

(** ** The tool-result reducer: when it raises *)

(** X5. The reducer raises in one case only: the error flag is set, the
    payload is a list that starts with a dict, and that dict's text is
    neither a string nor a list, so that it cannot be cut.  In every other
    case it returns a record. *)
Theorem tool_result_raises_iff (tool_result : dict) (tool_uses : registry) :
  (exists e, process_tool_result tool_result tool_uses = Raise e) <->
  py_truthy (dict_get tool_result "is_error" (JBool false)) = true
  /\ exists d rest,
       dict_get tool_result "content" (JStr "") = JArr (JObj d :: rest)
       /\ sliceable (dict_get d "text" (JStr "")) = false.
Proof.
  unfold process_tool_result.
  destruct (py_truthy _).
  - destruct (dict_get tool_result "content" (JStr ""))
      as [| b | z | f | s | [| first rest] | d];
      try (split; [intros (e & H); discriminate H
                  | intros (_ & d' & rest' & H & _); discriminate H]).
    destruct first as [| b | z | f | s | l | d];
      try (split; [intros (e & H); discriminate H
                  | intros (_ & d' & rest' & H & _); discriminate H]).
    destruct (sliceable (dict_get d "text" (JStr ""))) eqn:Hs.
    + split.
      * intros (e & H).
        destruct (dict_get d "text" (JStr "")); discriminate.
      * intros (_ & d0 & rest0 & H & Hs0). injection H as <- <-.
        rewrite Hs in Hs0. discriminate Hs0.
    + split.
      * intros _. split; [reflexivity|]. now exists d, rest.
      * intros _.
        destruct (dict_get d "text" (JStr "")); try discriminate Hs;
          now eexists.
  - split; [intros (e & H); discriminate H | intros (H & _); discriminate H].
Qed.

(** ** The simplifier: ids, priorities, params, success *)

Section SimplifierMore.

Variable py_str : json -> string.

Lemma fallback_probe_non_dict (keys : list string) (inp : json) (base r : dict) :
  (forall payload, inp <> JObj payload) ->
  fallback_probe py_str keys inp base = Ok r -> r = base.
Proof.
  intros Hshape. induction keys as [|key keys IH]; cbn [fallback_probe]; intros H.
  - now injection H as <-.
  - destruct inp as [| b | z | f | s | l | payload];
      try discriminate H; try (now destruct (Hshape payload));
      cbn [py_contains bind] in H;
      match type of H with
      | (if ?found then _ else _) = _ =>
          destruct found; [discriminate H | now apply IH]
      end.
Qed.

(** On a dict the probe loop stops at the first key that is there. *)
Lemma fallback_probe_first (before after : list string) (key : string)
  (payload base : dict) (v : json) :
  (forall k, In k before -> dict_lookup payload k = None) ->
  dict_lookup payload key = Some v ->
  fallback_probe py_str (before ++ key :: after) (JObj payload) base
  = Ok (dict_set base key (JStr (str_take 200 (py_str v)))).
Proof.
  intros Hbefore Hkey. induction before as [|k before IH];
    cbn [app fallback_probe py_contains py_getitem bind].
  - now rewrite Hkey.
  - rewrite (Hbefore k) by now left.
    apply IH. intros k' Hin. apply Hbefore. now right.
Qed.

Lemma fallback_probe_none (keys : list string) (payload base : dict) :
  (forall k, In k keys -> dict_lookup payload k = None) ->
  fallback_probe py_str keys (JObj payload) base = Ok base.
Proof.
  intros Hnone. induction keys as [|k keys IH];
    cbn [fallback_probe py_contains bind]; [reflexivity|].
  rewrite (Hnone k) by now left.
  apply IH. intros k' Hin. apply Hnone. now right.
Qed.

(** X6. The fallback takes the first probe key that the payload holds, in
    the order file_path, path, query, url, id, and sets that one field to
    the stringified value cut at 200 characters; later probe keys are not
    looked at. *)
Theorem fallback_first_probe_wins (tool_use payload : dict) (name key : string)
  (before after : list string) (v : json) :
  dict_get tool_use "name" (JStr "unknown") = JStr name ->
  rule_of name = RuleFallback ->
  dict_get tool_use "input" (JObj []) = JObj payload ->
  probe_keys = before ++ key :: after ->
  (forall k, In k before -> dict_lookup payload k = None) ->
  dict_lookup payload key = Some v ->
  simplify_tool_use py_str tool_use
  = Ok (dict_set [("tool", JStr name); ("id", dict_get tool_use "id" (JStr ""))]
          key (JStr (str_take 200 (py_str v)))).
Proof.
  intros Hname Hrule Hinp Hkeys Hbefore Hkey.
  rewrite (simplify_tool_use_dispatch py_str tool_use name Hname).
  cbv zeta. rewrite Hrule, Hinp, Hkeys.
  now apply fallback_probe_first.
Qed.

(** X7. A simplified record names the tool and carries the invocation id of
    the block, with one exception: in the fallback rule, when the payload
    has an [id] and none of file_path, path, query, url, the payload's [id]
    (stringified, cut at 200) takes the place of the invocation id. *)
Theorem tool_use_id_kept (tool_use r : dict) (name : string) :
  dict_get tool_use "name" (JStr "unknown") = JStr name ->
  simplify_tool_use py_str tool_use = Ok r ->
  dict_lookup r "tool" = Some (JStr name)
  /\ dict_lookup r "id" =
     Some (match id_shadowed name (dict_get tool_use "input" (JObj [])) with
           | Some v => JStr (str_take 200 (py_str v))
           | None => dict_get tool_use "id" (JStr "")
           end).
Proof.
  intros Hname H.
  rewrite (simplify_tool_use_dispatch py_str tool_use name Hname) in H.
  cbv zeta in H. unfold id_shadowed.
  destruct (rule_of name) eqn:Hrule.
  - ok_inv H; split; reflexivity.
  - ok_inv H; split; reflexivity.
  - bind_inv H. injection H as <-. split; reflexivity.
  - ok_inv H; split; reflexivity.
  - ok_inv H; split; reflexivity.
  - ok_inv H; split; reflexivity.
  - ok_inv H; split; reflexivity.
  - (* fallback *)
    destruct (dict_get tool_use "input" (JObj []))
      as [| b | z | f | s | l | payload] eqn:Hinp;
      try (apply fallback_probe_non_dict in H; [subst r; split; reflexivity |];
           intros payload; discriminate).
    unfold probe_keys in H.
    set (base := [("tool", JStr name); ("id", dict_get tool_use "id" (JStr ""))]) in *.
    assert (Hfound : forall before after key v,
               ["file_path"; "path"; "query"; "url"; "id"] = before ++ key :: after ->
               (forall k, In k before -> dict_lookup payload k = None) ->
               dict_lookup payload key = Some v ->
               r = dict_set base key (JStr (str_take 200 (py_str v)))).
    { intros before after key v Hkeys Hbefore Hkey. rewrite Hkeys in H.
      rewrite (fallback_probe_first before after key payload base v Hbefore Hkey) in H.
      now injection H as <-. }
    destruct (dict_lookup payload "file_path") as [v |] eqn:E1.
    { rewrite (Hfound [] _ "file_path" v eq_refl); [split; reflexivity | | exact E1].
      intros k []. }
    destruct (dict_lookup payload "path") as [v |] eqn:E2.
    { rewrite (Hfound ["file_path"] _ "path" v eq_refl); [split; reflexivity | | exact E2].
      intros k [<- | []]; assumption. }
    destruct (dict_lookup payload "query") as [v |] eqn:E3.
    { rewrite (Hfound ["file_path"; "path"] _ "query" v eq_refl);
        [split; reflexivity | | exact E3].
      intros k [<- | [<- | []]]; assumption. }
    destruct (dict_lookup payload "url") as [v |] eqn:E4.
    { rewrite (Hfound ["file_path"; "path"; "query"] _ "url" v eq_refl);
        [split; reflexivity | | exact E4].
      intros k [<- | [<- | [<- | []]]]; assumption. }
    destruct (dict_lookup payload "id") as [v |] eqn:E5.
    { rewrite (Hfound ["file_path"; "path"; "query"; "url"] _ "id" v eq_refl);
        [split; reflexivity | | exact E5].
      intros k [<- | [<- | [<- | [<- | []]]]]; assumption. }
    clear Hfound. rewrite fallback_probe_none in H.
    + injection H as <-. split; reflexivity.
    + intros k [<- | [<- | [<- | [<- | [<- | []]]]]]; assumption.
Qed.

Lemma dict_set_fresh (d : dict) (k : string) (v : json) :
  ~ In k (map fst d) -> dict_set d k v = d ++ [(k, v)].
Proof.
  induction d as [|[k' v'] d IH]; cbn; intros Hfresh; [reflexivity|].
  destruct (String.eqb_spec k' k) as [-> | Hne].
  - exfalso. apply Hfresh. now left.
  - rewrite IH; [reflexivity|]. intros Hin. apply Hfresh. now right.
Qed.

Lemma mcp_params_distinct (items : list (string * json)) :
  NoDup (map fst items) ->
  mcp_params py_str items = map (mcp_param py_str) items.
Proof.
  unfold mcp_params.
  assert (H : forall acc,
             NoDup (map fst items) ->
             (forall k, In k (map fst items) -> ~ In k (map fst acc)) ->
             fold_left
               (fun acc kv =>
                  dict_set acc (fst kv) (JStr (str_take 100 (py_str (snd kv)))))
               items acc
             = acc ++ map (mcp_param py_str) items).
  { induction items as [|[k v] items IH]; intros acc Hnd Hfresh;
      cbn [fold_left map fst snd].
    - now rewrite app_nil_r.
    - inversion Hnd as [| k0 ks Hk Hnd']; subst.
      rewrite dict_set_fresh by (apply Hfresh; now left).
      rewrite IH; [now rewrite <- app_assoc | exact Hnd' |].
      intros k' Hin. rewrite map_app, in_app_iff. intros [Hacc | [<- | []]].
      + apply (Hfresh k'); [now right | exact Hacc].
      + exact (Hk Hin). }
  intros Hnd. apply (H [] Hnd). intros k _ [].
Qed.

(** X8. For an mcp__ tool whose payload has distinct keys, [params] holds
    the first three entries of the payload, in the payload's order, each
    value stringified and cut at 100 characters; the entries after the third
    are left out. *)
Theorem mcp_params_first_three (tool_use payload : dict) (name : string) :
  dict_get tool_use "name" (JStr "unknown") = JStr name ->
  rule_of name = RuleMcp ->
  dict_get tool_use "input" (JObj []) = JObj payload ->
  NoDup (map fst payload) ->
  simplify_tool_use py_str tool_use
  = Ok [("tool", JStr name); ("id", dict_get tool_use "id" (JStr ""));
        ("params", JObj (map (mcp_param py_str) (firstn 3 payload)))].
Proof.
  intros Hname Hrule Hinp Hnd.
  rewrite (simplify_tool_use_dispatch py_str tool_use name Hname).
  cbv zeta. rewrite Hrule, Hinp. cbn [py_items bind app].
  rewrite mcp_params_distinct; [reflexivity|].
  rewrite <- (firstn_skipn 3 payload), map_app in Hnd.
  exact (NoDup_app_remove_r _ _ Hnd).
Qed.

(** X16. A TodoWrite record keeps the first five todo items, in order, each
    as its content cut at 50 characters.  The items after the fifth are not
    looked at, whatever they are. *)
Theorem todos_first_five (tool_use payload : dict) (name : string)
  (todos : list json) (contents : list string) :
  dict_get tool_use "name" (JStr "unknown") = JStr name ->
  rule_of name = RuleTodoWrite ->
  dict_get tool_use "input" (JObj []) = JObj payload ->
  dict_get payload "todos" (JArr []) = JArr todos ->
  Forall2 todo_with_content (firstn 5 todos) contents ->
  simplify_tool_use py_str tool_use
  = Ok [("tool", JStr name); ("id", dict_get tool_use "id" (JStr ""));
        ("todos", JArr (map (fun c => JStr (str_take 50 c)) contents))].
Proof.
  intros Hname Hrule Hinp Htodos Hitems.
  rewrite (simplify_tool_use_dispatch py_str tool_use name Hname).
  cbv zeta. rewrite Hrule, Hinp. cbn [py_get bind]. rewrite Htodos.
  cbn [py_slice py_iter bind].
  assert (Hmap : mapM (fun t => c <- py_get t "content" (JStr "") ;; py_slice 50 c)
                   (firstn 5 todos)
                 = Ok (map (fun c => JStr (str_take 50 c)) contents)).
  { induction Hitems as [| t c ts cs (d & -> & Hc) _ IH]; [reflexivity|].
    cbn [mapM py_get bind map]. rewrite Hc. cbn [py_slice bind].
    now rewrite IH. }
  now rewrite Hmap.
Qed.

Lemma fallback_probe_dict_returns (keys : list string) (payload base : dict) :
  exists r, fallback_probe py_str keys (JObj payload) base = Ok r.
Proof.
  induction keys as [|k keys IH]; cbn [fallback_probe py_contains py_getitem bind].
  - now eexists.
  - destruct (dict_lookup payload k); [now eexists | exact IH].
Qed.

(** X9. The simplifier returns a record for every block whose name is a
    string and whose payload is a dict, given the typing its rule needs: a
    string command for Bash, a string pattern for Grep, for TodoWrite a list
    whose first five items are dicts with a string content.  The rules for
    Read, Edit, Write, Glob, Task, the mcp__ tools and the fallback accept
    values of any type. *)
Theorem simplify_tool_use_succeeds (tool_use payload : dict) (name : string) :
  dict_get tool_use "name" (JStr "unknown") = JStr name ->
  dict_get tool_use "input" (JObj []) = JObj payload ->
  payload_well_typed name payload = true ->
  exists r, simplify_tool_use py_str tool_use = Ok r.
Proof.
  intros Hname Hinp Htyped.
  rewrite (simplify_tool_use_dispatch py_str tool_use name Hname).
  cbv zeta. rewrite Hinp. unfold payload_well_typed in Htyped.
  destruct (rule_of name); cbn [py_get py_items bind]; try (now eexists).
  - (* Bash *)
    destruct (dict_get payload "command" (JStr "")) as [| | | | c | |];
      try discriminate Htyped.
    cbn [py_len bind]. destruct (200 <? String.length c); now eexists.
  - (* Grep *)
    destruct (dict_get payload "pattern" (JStr "")) as [| | | | p | |];
      try discriminate Htyped.
    now eexists.
  - (* TodoWrite *)
    destruct (dict_get payload "todos" (JArr [])) as [| | | | | todos |];
      try discriminate Htyped.
    cbn [py_slice py_iter bind].
    induction (firstn 5 todos) as [|t ts IH]; [now eexists|].
    cbn [forallb] in Htyped. apply andb_true_iff in Htyped.
    destruct Htyped as [Ht Hts].
    destruct t as [| | | | | | d]; try discriminate Ht.
    destruct (dict_get d "content" (JStr "")) as [| | | | c | |] eqn:Ec;
      try discriminate Ht.
    destruct (IH Hts) as (r & Hr). cbn [mapM py_get bind]. rewrite Ec.
    cbn [py_slice bind].
    destruct (mapM _ ts) as [texts |]; [now eexists | discriminate Hr].
  - (* fallback *)
    apply fallback_probe_dict_returns.
Qed.

End SimplifierMore.

(** ** Trimming *)

Lemma text_record_trimmed (type text : string) :
  str_nonempty (str_strip text) = true ->
  record_text_trimmed [("type", JStr type); ("text", JStr (str_strip text))] = true.
Proof.
  intros Hne. unfold record_text_trimmed.
  cbn [dict_get dict_lookup String.eqb Ascii.eqb Bool.eqb].
  destruct (_ || _); [| reflexivity].
  destruct (str_strip_is_strip text) as (before & after & _ & _ & _ & Hstart & Hend).
  destruct (str_strip text) as [|c rest]; [discriminate Hne|].
  now rewrite Hstart, Hend.
Qed.

(** ** The records of a pass *)

(** What holds of every record the processors return holds of every record
    behind a line of the output file. *)
Section RecordsOfAPass.

Variable py_str : json -> string.
Variable json_loads : string -> option json.
Variable json_dumps : dict -> string.
Variable P : dict -> bool.

Hypothesis assistant_record_ok :
  forall text, str_nonempty (str_strip text) = true ->
    P [("type", JStr "assistant"); ("text", JStr (str_strip text))] = true.
Hypothesis user_record_ok :
  forall text, str_nonempty (str_strip text) = true ->
    P [("type", JStr "user"); ("text", JStr (str_strip text))] = true.
Hypothesis tool_use_record_ok :
  forall item r, simplify_tool_use py_str item = Ok r ->
    P (tool_use_record r) = true.
Hypothesis result_record_ok :
  forall item tool_uses r, process_tool_result item tool_uses = Ok r ->
    P (result_record r) = true.

Lemma assistant_loop_all (items : list json) :
  forall outputs tool_uses outs tool_uses',
    forallb P outputs = true ->
    assistant_loop py_str items outputs tool_uses = Ok (outs, tool_uses') ->
    forallb P outs = true.
Proof.
  induction items as [|item items IH]; intros outputs tu outs tu' Hacc H.
  - now injection H as <- _.
  - destruct item as [| b | z | f | str | l | item];
      cbn [assistant_loop] in H; try (eapply IH; eassumption).
    destruct (py_eq_str (dict_get item "type" JNull) "text").
    + destruct (dict_get item "text" (JStr "")) as [| | | | text | |];
        try discriminate H.
      cbn [py_strip bind] in H.
      destruct (str_nonempty (str_strip text)) eqn:Hne;
        [| eapply IH; eassumption].
      eapply IH; [| exact H].
      rewrite forallb_app, Hacc. cbn [forallb].
      now rewrite assistant_record_ok.
    + destruct (py_eq_str (dict_get item "type" JNull) "tool_use");
        [| eapply IH; eassumption].
      destruct (simplify_tool_use py_str item) as [simplified |] eqn:Esim;
        cbn [bind] in H; [| discriminate H].
      destruct (registry_set tu _ simplified) as [tu1 |]; cbn [bind] in H;
        [| discriminate H].
      eapply IH; [| exact H].
      destruct (simplify_tool_use_record py_str _ _ Esim) as [Hrec _].
      rewrite forallb_app, Hacc, Hrec. cbn [forallb].
      now rewrite (tool_use_record_ok _ _ Esim).
Qed.

Lemma process_user_message_all (content : json) (tool_uses : registry)
  (outs : list dict) :
  process_user_message content tool_uses = Ok outs -> forallb P outs = true.
Proof.
  intros H. apply process_user_message_inv in H.
  destruct H as (items & texts & rs & _ & _ & Hrs & ->).
  rewrite forallb_app. apply andb_true_iff. split.
  - unfold user_records.
    destruct (str_nonempty _) eqn:Hne; [| reflexivity].
    cbn [forallb]. now rewrite user_record_ok.
  - assert (Hall : forallb (fun r => P (result_record r)) rs = true).
    { eapply mapM_forallb; [| exact Hrs].
      intros b r Hr. eapply result_record_ok; exact Hr. }
    clear Hrs. induction rs as [|r rs IH]; [reflexivity|].
    cbn [map forallb] in *. apply andb_true_iff in Hall.
    destruct Hall as [H1 H2]. now rewrite H1, IH.
Qed.

Lemma step_all (s s' : state) (line : string) :
  streamline_step py_str json_loads json_dumps s line = Ok s' ->
  exists outs,
    st_output_file s' = st_output_file s ++ map (output_line_of json_dumps) outs
    /\ forallb P outs = true.
Proof.
  unfold streamline_step. intros H.
  assert (Hnone : forall st tu,
             exists outs,
               st_output_file (mkState st tu (st_output_file s))
               = st_output_file s ++ map (output_line_of json_dumps) outs
               /\ forallb P outs = true).
  { intros st tu. exists []. cbn. now rewrite app_nil_r. }
  destruct (json_loads line) as [record |];
    [| injection H as <-; apply Hnone].
  bind_inv H; try (injection H as <-; apply Hnone);
    rewrite write_outputs_spec in H; injection H as <-;
    cbn [st_output_file]; eexists; (split; [reflexivity|]).
  - match goal with
    | E : process_assistant_message _ _ _ = Ok ?r |- _ =>
        destruct r as [outs tu']; cbn [fst];
        unfold process_assistant_message in E;
        destruct (py_iter _) as [items |]; [| discriminate E];
        cbn [bind] in E; eapply assistant_loop_all; [| exact E]; reflexivity
    end.
  - eapply process_user_message_all; eassumption.
Qed.

Lemma loop_all (input_file : list string) :
  forall s s',
    streamline_loop py_str json_loads json_dumps input_file s = Ok s' ->
    exists outs,
      st_output_file s' = st_output_file s ++ map (output_line_of json_dumps) outs
      /\ forallb P outs = true.
Proof.
  induction input_file as [|line rest IH]; intros s s' H.
  - injection H as <-. exists []. cbn. now rewrite app_nil_r.
  - cbn [streamline_loop] in H.
    destruct (streamline_step py_str json_loads json_dumps s line)
      as [s1 |] eqn:E1; [| discriminate H].
    cbn [bind] in H.
    destruct (step_all _ _ _ E1) as (outs1 & Hf1 & Hb1).
    destruct (IH _ _ H) as (outs2 & Hf2 & Hb2).
    exists (outs1 ++ outs2). split.
    + now rewrite Hf2, Hf1, map_app, app_assoc.
    + now rewrite forallb_app, Hb1, Hb2.
Qed.

Lemma pass_all (input_file : list string) (st : stats) (output_file : list string) :
  streamline py_str json_loads json_dumps input_file = Ok (st, output_file) ->
  exists records,
    output_file = map (output_line_of json_dumps) records
    /\ forallb P records = true.
Proof.
  unfold streamline. intros H.
  destruct (streamline_loop _ _ _ input_file initial_state) as [s |] eqn:E;
    [| discriminate H].
  injection H as _ <-.
  destruct (loop_all _ _ _ E) as (outs & Hf & Hb).
  exists outs. split; [exact Hf | exact Hb].
Qed.

End RecordsOfAPass.

Section Layout.

Variable py_str : json -> string.
Variable json_loads : string -> option json.
Variable json_dumps : dict -> string.

Lemma simplify_tool_use_layout (item r : dict) :
  simplify_tool_use py_str item = Ok r ->
  record_layout_ok (tool_use_record r) = true.
Proof.
  intros H. destruct (simplify_tool_use_name _ _ _ H) as (name & Hname).
  rewrite (simplify_tool_use_dispatch py_str item name Hname) in H.
  cbv zeta in H.
  destruct (rule_of name).
  - ok_inv H; reflexivity.
  - ok_inv H; reflexivity.
  - bind_inv H. injection H as <-. reflexivity.
  - ok_inv H; reflexivity.
  - ok_inv H; reflexivity.
  - ok_inv H; reflexivity.
  - ok_inv H; reflexivity.
  - apply fallback_probe_inv in H.
    destruct H as [-> | (key & s & Hin & _ & ->)]; [reflexivity|].
    cbn [probe_keys In] in Hin.
    repeat (destruct Hin as [<- | Hin]; [reflexivity|]).
    contradiction.
Qed.

Lemma process_tool_result_layout (item : dict) (tool_uses : registry) (r : dict) :
  process_tool_result item tool_uses = Ok r ->
  record_layout_ok (result_record r) = true.
Proof.
  unfold process_tool_result. intros H.
  destruct (py_truthy _).
  - destruct (dict_get item "content" (JStr ""))
      as [| b | z | f | s | [| first rest] | d];
      try (injection H as <-; reflexivity).
    destruct first; try (injection H as <-; reflexivity).
    ok_inv H. reflexivity.
  - injection H as <-. reflexivity.
Qed.

(** X10. Every line a pass writes is the serialisation of a record that
    starts with its [type], one of assistant, user, tool_use and result,
    followed by the fields of that type in a fixed order: [text] alone for
    assistant and user, [tool] then [id] for tool_use, [id] then a boolean
    [ok] for result. *)
Theorem written_records_layout (input_file : list string) (st : stats)
  (output_file : list string) :
  streamline py_str json_loads json_dumps input_file = Ok (st, output_file) ->
  exists records,
    output_file = map (output_line_of json_dumps) records
    /\ forallb record_layout_ok records = true.
Proof.
  apply pass_all.
  - reflexivity.
  - reflexivity.
  - apply simplify_tool_use_layout.
  - apply process_tool_result_layout.
Qed.

(** X11. No record of a pass carries a blank text: the text of every
    assistant and user record written is non-empty and has no whitespace at
    its start or end. *)
Theorem written_texts_trimmed (input_file : list string) (st : stats)
  (output_file : list string) :
  streamline py_str json_loads json_dumps input_file = Ok (st, output_file) ->
  exists records,
    output_file = map (output_line_of json_dumps) records
    /\ forallb record_text_trimmed records = true.
Proof.
  apply pass_all.
  - intros text. apply text_record_trimmed.
  - intros text. apply text_record_trimmed.
  - reflexivity.
  - reflexivity.
Qed.

End Layout.

(** ** The pass: accounting, prefixes, aborts, silent lines *)

Section PassMore.

Variable py_str : json -> string.
Variable json_loads : string -> option json.
Variable json_dumps : dict -> string.

Local Abbreviation step := (streamline_step py_str json_loads json_dumps).
Local Abbreviation loop := (streamline_loop py_str json_loads json_dumps).
Local Abbreviation pass := (streamline py_str json_loads json_dumps).

Lemma step_input_counters (s s' : state) (line : string) :
  step s line = Ok s' ->
  input_lines (st_stats s') = input_lines (st_stats s) + 1
  /\ input_bytes (st_stats s') = input_bytes (st_stats s) + String.length line.
Proof.
  unfold streamline_step. intros H.
  destruct (json_loads line) as [record |];
    [| injection H as <-; split; reflexivity].
  bind_inv H; try (injection H as <-; split; reflexivity);
    rewrite write_outputs_spec in H; injection H as <-; split; reflexivity.
Qed.

Lemma loop_input_counters (input_file : list string) :
  forall s s',
    loop input_file s = Ok s' ->
    input_lines (st_stats s') = input_lines (st_stats s) + List.length input_file
    /\ input_bytes (st_stats s')
       = input_bytes (st_stats s) + list_sum (map String.length input_file).
Proof.
  induction input_file as [|line rest IH]; intros s s' H.
  - injection H as <-. cbn. lia.
  - cbn [streamline_loop] in H.
    destruct (step s line) as [s1 |] eqn:E1; [| discriminate H].
    cbn [bind] in H.
    destruct (step_input_counters _ _ _ E1) as [Hl Hb].
    destruct (IH _ _ H) as [Hl' Hb'].
    cbn [List.length map list_sum fold_right]. unfold list_sum in Hb'. lia.
Qed.

(** X12. The counters a pass returns account for its input and its output:
    [input_lines] is the number of lines read and [input_bytes] their total
    length, [output_lines] is the number of lines written and
    [output_bytes] their total length, and no more records are counted as
    dropped than lines were read. *)
Theorem stats_accounting (input_file : list string) (st : stats)
  (output_file : list string) :
  pass input_file = Ok (st, output_file) ->
  input_lines st = List.length input_file
  /\ input_bytes st = list_sum (map String.length input_file)
  /\ output_lines st = List.length output_file
  /\ output_bytes st = list_sum (map String.length output_file)
  /\ dropped_records st <= input_lines st.
Proof.
  unfold streamline. intros H.
  destruct (loop input_file initial_state) as [s |] eqn:E; [| discriminate H].
  injection H as <- <-.
  destruct (loop_input_counters _ _ _ E) as [Hl Hb].
  assert (Hinit : counters_match_file initial_state)
    by (repeat split; constructor).
  destruct (loop_counters py_str json_loads json_dumps _ _ _ E Hinit)
    as (Hol & Hob & _).
  pose proof (loop_dropped py_str json_loads json_dumps _ _ _ E) as Hd.
  pose proof (filter_length_le (counts_as_dropped json_loads) input_file) as Hle.
  cbn in Hl, Hb, Hd. repeat split; try assumption. lia.
Qed.

Lemma loop_app (input1 input2 : list string) :
  forall s,
    loop (input1 ++ input2) s = (s' <- loop input1 s ;; loop input2 s').
Proof.
  induction input1 as [|line rest IH]; intros s; [reflexivity|].
  cbn [app streamline_loop].
  destruct (step s line) as [s1 |]; cbn [bind]; [apply IH | reflexivity].
Qed.

(** X13. The output of a transcript starts with the output of each of its
    prefixes: if the pass over a transcript returns, so does the pass over
    any prefix of it, and the lines the prefix gives are the first lines the
    whole gives. *)
Theorem output_extends_prefix (input1 input2 : list string) (st : stats)
  (output_file : list string) :
  pass (input1 ++ input2) = Ok (st, output_file) ->
  exists st1 output1 rest,
    pass input1 = Ok (st1, output1)
    /\ output_file = output1 ++ rest
    /\ output_lines st = output_lines st1 + List.length rest
    /\ dropped_records st1 <= dropped_records st.
Proof.
  unfold streamline. rewrite loop_app. intros H.
  destruct (loop input1 initial_state) as [s1 |] eqn:E1; [| discriminate H].
  cbn [bind] in H.
  destruct (loop input2 s1) as [s2 |] eqn:E2; [| discriminate H].
  injection H as <- <-.
  destruct (loop_written py_str json_loads json_dumps _ _ _ E2) as (outs & Hf & _).
  assert (Hinit : counters_match_file initial_state)
    by (repeat split; constructor).
  pose proof (loop_counters py_str json_loads json_dumps _ _ _ E1 Hinit) as Hc1.
  destruct (loop_counters py_str json_loads json_dumps _ _ _ E2 Hc1) as (Hl2 & _).
  destruct Hc1 as (Hl1 & _).
  pose proof (loop_dropped py_str json_loads json_dumps _ _ _ E2) as Hd.
  exists (st_stats s1), (st_output_file s1), (map (output_line_of json_dumps) outs).
  cbn [bind]. repeat split; try assumption.
  - rewrite Hl2, Hl1, Hf, length_app. reflexivity.
  - lia.
Qed.

(** X14. A line that is valid JSON but not an object ends the pass: where a
    line that does not parse is skipped, a line such as [[1]] or [42] makes
    the pass raise [AttributeError], whatever follows it. *)
Theorem non_object_line_aborts (input1 input2 : list string) (line : string)
  (record : json) (s1 : state) :
  loop input1 initial_state = Ok s1 ->
  json_loads line = Some record ->
  (forall fields, record <> JObj fields) ->
  pass (input1 ++ line :: input2) = Raise AttributeError.
Proof.
  intros H1 Hparse Hshape. unfold streamline.
  rewrite loop_app, H1. cbn [bind streamline_loop].
  now rewrite (step_non_object_raises py_str json_loads json_dumps s1 line record
                 Hparse Hshape).
Qed.

(** One turn of the loop looks at the registry and the file only. *)
Lemma step_view_congr (s1 s2 : state) (line : string) :
  st_tool_uses s1 = st_tool_uses s2 ->
  st_output_file s1 = st_output_file s2 ->
  registry_and_file (step s1 line) = registry_and_file (step s2 line).
Proof.
  destruct s1 as [st1 tu1 f1], s2 as [st2 tu2 f2].
  cbn [st_tool_uses st_output_file]. intros -> ->.
  unfold streamline_step. cbn [st_stats st_tool_uses st_output_file].
  destruct (json_loads line) as [record |]; [| reflexivity].
  destruct (py_get record "type" JNull) as [record_type |]; cbn [bind]; [| reflexivity].
  destruct (_ || _); [reflexivity|].
  destruct (py_eq_str record_type "assistant").
  - destruct (py_get record "message" (JObj [])) as [message |]; cbn [bind]; [| reflexivity].
    destruct (py_get message "content" (JArr [])) as [content |]; cbn [bind]; [| reflexivity].
    destruct (process_assistant_message py_str content tu2) as [[outs tu'] |];
      cbn [bind fst snd]; [| reflexivity].
    now rewrite !write_outputs_spec.
  - destruct (py_eq_str record_type "user"); [| reflexivity].
    destruct (py_get record "message" (JObj [])) as [message |]; cbn [bind]; [| reflexivity].
    destruct (py_get message "content" (JArr [])) as [content |]; cbn [bind]; [| reflexivity].
    destruct (process_user_message content tu2); cbn [bind]; [| reflexivity].
    now rewrite !write_outputs_spec.
Qed.

Lemma step_silent (s : state) (line : string) :
  writes_nothing json_loads line = true ->
  registry_and_file (step s line) = Ok (st_tool_uses s, st_output_file s).
Proof.
  unfold writes_nothing, is_dropped_type, streamline_step.
  destruct (json_loads line) as [record |]; [| reflexivity].
  destruct record as [| b | z | f | str | l | record]; try discriminate.
  cbn [py_get bind].
  destruct (py_eq_str _ "file-history-snapshot" || py_eq_str _ "queue-operation");
    [reflexivity|].
  cbn [orb].
  destruct (py_eq_str _ "assistant"); [discriminate|].
  destruct (py_eq_str _ "user"); [discriminate | reflexivity].
Qed.

Lemma loop_view_filter (input_file : list string) :
  forall s1 s2,
    st_tool_uses s1 = st_tool_uses s2 ->
    st_output_file s1 = st_output_file s2 ->
    registry_and_file
      (loop (filter (fun line => negb (writes_nothing json_loads line)) input_file) s1)
    = registry_and_file (loop input_file s2).
Proof.
  induction input_file as [|line rest IH]; intros s1 s2 Htu Hf.
  - cbn. now rewrite Htu, Hf.
  - cbn [filter streamline_loop].
    destruct (writes_nothing json_loads line) eqn:Esilent; cbn [negb].
    + pose proof (step_silent s2 line Esilent) as Hstep.
      destruct (step s2 line) as [s2' |]; [| discriminate Hstep].
      cbn [registry_and_file] in Hstep. injection Hstep as Htu' Hf'.
      cbn [bind]. apply IH; congruence.
    + cbn [streamline_loop].
      pose proof (step_view_congr s1 s2 line Htu Hf) as Hstep.
      destruct (step s1 line) as [s1' |], (step s2 line) as [s2' |];
        cbn [registry_and_file] in Hstep; try discriminate Hstep; cbn [bind].
      * injection Hstep as Htu' Hf'. now apply IH.
      * exact Hstep.
Qed.

(** X15. The lines that write nothing do not matter to the output: taking
    out of a transcript every line that does not parse and every record of a
    dropped type leaves the lines written, or the exception raised,
    unchanged. *)
Theorem silent_lines_do_not_matter (input_file : list string) :
  written (pass (filter (fun line => negb (writes_nothing json_loads line)) input_file))
  = written (pass input_file).
Proof.
  unfold streamline.
  pose proof (loop_view_filter input_file initial_state initial_state eq_refl eq_refl)
    as H.
  destruct (loop (filter _ input_file) initial_state) as [s1 |],
           (loop input_file initial_state) as [s2 |];
    cbn [registry_and_file] in H; try discriminate H; cbn [bind written snd].
  - now injection H as _ ->.
  - injection H as ->. reflexivity.
Qed.

End PassMore.

(** ** The further properties at the sample inputs *)

Lemma registry_holds_latest_tool_use_witness :
  registry_get
    [(JStr "", [("tool", JStr "Read"); ("id", JStr ""); ("target", JStr "/b")])]
    (JStr "")
  = Some [("tool", JStr "Read"); ("id", JStr ""); ("target", JStr "/b")].
Proof.
  exact (registry_holds_latest_tool_use Sample.str Cases.anonymous_content _ [] _ _
           (JStr "") eq_refl eq_refl eq_refl).
Defined.

Lemma assistant_succeeds_iff_witness :
  exists r, process_assistant_message Sample.str Cases.mixed_content [] = Ok r.
Proof.
  apply (proj2 (assistant_succeeds_iff Sample.str Cases.mixed_content [])).
  eexists. split; reflexivity.
Defined.

Lemma tool_result_raises_iff_witness :
  exists e, process_tool_result Cases.bad_result [] = Raise e.
Proof.
  apply (proj2 (tool_result_raises_iff Cases.bad_result [])).
  split; [reflexivity|]. eexists _, _. split; reflexivity.
Defined.

Lemma fallback_first_probe_wins_witness :
  simplify_tool_use Sample.str Cases.lookup_block
  = Ok [("tool", JStr "Lookup"); ("id", JStr "u1"); ("query", JStr "streamline")].
Proof.
  apply (fallback_first_probe_wins Sample.str Cases.lookup_block
           [("limit", JInt 3); ("query", JStr "streamline"); ("id", JInt 42)]
           "Lookup" "query" ["file_path"; "path"] ["url"; "id"]
           (JStr "streamline")); try reflexivity.
  intros k [<- | [<- | []]]; reflexivity.
Defined.

Lemma tool_use_id_kept_witness :
  dict_lookup [("tool", JStr "Lookup"); ("id", JStr "42")] "tool"
  = Some (JStr "Lookup")
  /\ dict_lookup [("tool", JStr "Lookup"); ("id", JStr "42")] "id"
     = Some (JStr "42").
Proof.
  exact (tool_use_id_kept Sample.str Cases.shadowed_block
           [("tool", JStr "Lookup"); ("id", JStr "42")] "Lookup"
           eq_refl eq_refl).
Defined.

Lemma mcp_params_first_three_witness :
  simplify_tool_use Sample.str Cases.mcp_block
  = Ok [("tool", JStr "mcp__db__query"); ("id", JStr "m1");
        ("params", JObj [("sql", JStr "select 1"); ("limit", JStr "10");
                         ("dry", JStr "True")])].
Proof.
  apply (mcp_params_first_three Sample.str Cases.mcp_block
           [("sql", JStr "select 1"); ("limit", JInt 10);
            ("dry", JBool true); ("tag", JStr "x")] "mcp__db__query");
    try reflexivity.
  repeat (constructor; [cbn; intuition discriminate |]). constructor.
Defined.

Lemma todos_first_five_witness :
  simplify_tool_use Sample.str Cases.todo_block
  = Ok [("tool", JStr "TodoWrite"); ("id", JStr "w2");
        ("todos", JArr [JStr "one"; JStr "two"; JStr "three"; JStr "four";
                        JStr "five"])].
Proof.
  apply (todos_first_five Sample.str Cases.todo_block _ "TodoWrite" _
           ["one"; "two"; "three"; "four"; "five"]
           eq_refl eq_refl eq_refl eq_refl).
  cbn [firstn].
  repeat (constructor; [eexists; split; reflexivity |]). constructor.
Defined.

Lemma simplify_tool_use_succeeds_witness :
  exists r, simplify_tool_use Sample.str Sample.bash_block = Ok r.
Proof.
  apply (simplify_tool_use_succeeds Sample.str Sample.bash_block
           [("command", JStr Sample.long_command)] "Bash"); reflexivity.
Defined.

Lemma written_records_layout_witness :
  exists records,
    snd Sample.run = map (output_line_of Sample.dumps) records
    /\ forallb record_layout_ok records = true.
Proof.
  apply (written_records_layout Sample.str Sample.loads Sample.dumps
           Sample.input_file (fst Sample.run)).
  vm_compute. reflexivity.
Defined.

Lemma written_texts_trimmed_witness :
  exists records,
    snd Sample.run = map (output_line_of Sample.dumps) records
    /\ forallb record_text_trimmed records = true.
Proof.
  apply (written_texts_trimmed Sample.str Sample.loads Sample.dumps
           Sample.input_file (fst Sample.run)).
  vm_compute. reflexivity.
Defined.

Lemma stats_accounting_witness :
  input_lines (fst Sample.run) = List.length Sample.input_file
  /\ input_bytes (fst Sample.run) = list_sum (map String.length Sample.input_file)
  /\ output_lines (fst Sample.run) = List.length (snd Sample.run)
  /\ output_bytes (fst Sample.run) = list_sum (map String.length (snd Sample.run))
  /\ dropped_records (fst Sample.run) <= input_lines (fst Sample.run).
Proof.
  apply (stats_accounting Sample.str Sample.loads Sample.dumps Sample.input_file).
  vm_compute. reflexivity.
Defined.

Lemma output_extends_prefix_witness :
  exists st1 output1 rest,
    streamline Sample.str Sample.loads Sample.dumps Cases.first_lines
    = Ok (st1, output1)
    /\ snd Sample.run = output1 ++ rest
    /\ output_lines (fst Sample.run) = output_lines st1 + List.length rest
    /\ dropped_records st1 <= dropped_records (fst Sample.run).
Proof.
  apply (output_extends_prefix Sample.str Sample.loads Sample.dumps
           Cases.first_lines Cases.last_lines).
  vm_compute. reflexivity.
Defined.

Lemma non_object_line_aborts_witness :
  streamline Sample.str Cases.loads Sample.dumps
    ([Sample.garbage] ++ Cases.array_line :: map Sample.line_of Sample.records)
  = Raise AttributeError.
Proof.
  apply (non_object_line_aborts Sample.str Cases.loads Sample.dumps
           [Sample.garbage] (map Sample.line_of Sample.records) Cases.array_line
           (JArr [JInt 1]) (mkState (mkStats 1 9 0 0 0) [] [])).
  - vm_compute. reflexivity.
  - reflexivity.
  - intros fields. discriminate.
Defined.
